(** * Authentication router of the web backend (backend/apps/web/routers/auths.py)

    A shallow embedding of the route handlers: sign-in, sign-up, admin user
    creation, password update, token-expiry configuration, API keys and the
    single-sign-on callback.  Handlers are state-passing functions over a
    [World] made of the user table and the process-wide configuration
    attached to the application ([request.app.state]); an [HTTPException]
    raised by a handler is the [Raise] outcome, and the world it leaves
    behind is kept (nothing is rolled back, as in the source).

    Strings are ASCII strings; random values ([uuid.uuid4()], the generated
    API key) are explicit arguments of the handler that draws them. *)

From Stdlib Require Import String Ascii List Bool Arith Lia.
Import ListNotations.
Open Scope list_scope.
Open Scope string_scope.
Open Scope nat_scope.

(** ** Python values used by the handlers *)

(** Truth value of a [str]: the empty string is false. *)
Definition truthy (s : string) : bool :=
  match s with
  | EmptyString => false
  | String _ _ => true
  end.

(** Truth value of an [Optional[str]]: [None] and the empty string are false. *)
Definition truthy_opt (o : option string) : bool :=
  match o with
  | None => false
  | Some s => truthy s
  end.

(** [str.lower()] on ASCII text: the letters A-Z move to a-z. *)
Definition lower_ascii (c : ascii) : ascii :=
  let n := nat_of_ascii c in
  if (65 <=? n) && (n <=? 90) then ascii_of_nat (n + 32) else c.

Fixpoint lower (s : string) : string :=
  match s with
  | EmptyString => EmptyString
  | String c r => String (lower_ascii c) (lower r)
  end.

(** ** Regular expressions ([re.match]) *)

Module Re.

Inductive regex : Type :=
| Void : regex
| Eps : regex
| Chr : ascii -> regex
| Digit : regex
| Alt : regex -> regex -> regex
| Seq : regex -> regex -> regex
| Star : regex -> regex.

(** [\d] on ASCII text. *)
Definition is_digit (c : ascii) : bool :=
  let n := nat_of_ascii c in (48 <=? n) && (n <=? 57).

Fixpoint Lit (s : string) : regex :=
  match s with
  | EmptyString => Eps
  | String c r => Seq (Chr c) (Lit r)
  end.

Definition Opt (r : regex) : regex := Alt r Eps.
Definition Plus (r : regex) : regex := Seq r (Star r).

(** Denotation: the strings a pattern matches in full. *)
Inductive lang : regex -> string -> Prop :=
| L_Eps : lang Eps ""
| L_Chr c : lang (Chr c) (String c "")
| L_Digit c : is_digit c = true -> lang Digit (String c "")
| L_AltL r1 r2 s : lang r1 s -> lang (Alt r1 r2) s
| L_AltR r1 r2 s : lang r2 s -> lang (Alt r1 r2) s
| L_Seq r1 r2 s1 s2 : lang r1 s1 -> lang r2 s2 -> lang (Seq r1 r2) (s1 ++ s2)
| L_StarNil r : lang (Star r) ""
| L_StarCons r s1 s2 :
    lang r s1 -> lang (Star r) s2 -> lang (Star r) (s1 ++ s2).

Fixpoint nullable (r : regex) : bool :=
  match r with
  | Void => false
  | Eps => true
  | Chr _ => false
  | Digit => false
  | Alt a b => nullable a || nullable b
  | Seq a b => nullable a && nullable b
  | Star _ => true
  end.

Fixpoint deriv (c : ascii) (r : regex) : regex :=
  match r with
  | Void => Void
  | Eps => Void
  | Chr d => if Ascii.eqb c d then Eps else Void
  | Digit => if is_digit c then Eps else Void
  | Alt a b => Alt (deriv c a) (deriv c b)
  | Seq a b =>
      if nullable a
      then Alt (Seq (deriv c a) b) (deriv c b)
      else Seq (deriv c a) b
  | Star a => Seq (deriv c a) (Star a)
  end.

(** Whether the whole of [s] is matched by [r]. *)
Fixpoint fullmatch (r : regex) (s : string) : bool :=
  match s with
  | EmptyString => nullable r
  | String c rest => fullmatch (deriv c r) rest
  end.

(** The text before a final newline, when the string ends in one. *)
Fixpoint before_final_newline (s : string) : option string :=
  match s with
  | EmptyString => None
  | String c rest =>
      match rest with
      | EmptyString => if Ascii.eqb c "010"%char then Some "" else None
      | String _ _ =>
          match before_final_newline rest with
          | Some t => Some (String c t)
          | None => None
          end
      end
  end.

(** [re.match(r"^...$", s)] without flags: [^] anchors at the start, and
    [$] holds at the end of the string and also just before a newline
    that ends it. *)
Definition match_anchored (r : regex) (s : string) : bool :=
  fullmatch r s ||
  match before_final_newline s with
  | Some t => fullmatch r t
  | None => false
  end.

End Re.

(** ** Data model *)

(** A row of the credential store. *)
Record User : Type := mkUser {
  user_id : string;
  user_email : string;
  user_password_hash : string;
  user_name : string;
  user_role : string;
  user_profile_image_url : string;
  user_extra_sso : option string;
  user_api_key : option string
}.

(** Process-wide configuration, [request.app.state]. *)
Record AppState : Type := mkAppState {
  ENABLE_SIGNUP : bool;
  DEFAULT_USER_ROLE : string;
  JWT_EXPIRES_IN : string;
  WEBHOOK_URL : string
}.

(** The third argument of [post_webhook]. *)
Record WebhookEvent : Type := mkWebhookEvent {
  event_action : string;
  event_message : string;
  event_user : string
}.

(** One notification handed to the webhook notifier, with the delivery
    outcome it reported. *)
Record WebhookCall : Type := mkWebhookCall {
  call_url : string;
  call_message : string;
  call_event : WebhookEvent;
  call_delivered : bool
}.

Record World : Type := mkWorld {
  db : list User;
  state : AppState;
  outbox : list WebhookCall
}.

Definition set_db (w : World) (d : list User) : World :=
  mkWorld d (state w) (outbox w).
Definition set_state (w : World) (s : AppState) : World :=
  mkWorld (db w) s (outbox w).
Definition push_outbox (w : World) (c : WebhookCall) : World :=
  mkWorld (db w) (state w) (outbox w ++ [c])%list.

(** Request bodies. *)
Record SigninForm : Type := mkSigninForm {
  signin_email : string;
  signin_password : string
}.

Record SignupForm : Type := mkSignupForm {
  signup_name : string;
  signup_email : string;
  signup_password : string;
  signup_profile_image_url : string;
  signup_extra_sso : option string
}.

Record AddUserForm : Type := mkAddUserForm {
  add_name : string;
  add_email : string;
  add_password : string;
  add_profile_image_url : string;
  add_role : string
}.

Record UpdateProfileForm : Type := mkUpdateProfileForm {
  profile_form_image_url : string;
  profile_form_name : string
}.

Record UpdatePasswordForm : Type := mkUpdatePasswordForm {
  form_password : string;
  form_new_password : string
}.

(** The part of a request the handlers read besides the body. *)
Record Request : Type := mkRequest {
  headers : list (string * string)
}.

(** Header names are compared without regard to case. *)
Definition headers_get (h : list (string * string)) (k : string)
  : option string :=
  match find (fun kv => lower (fst kv) =? lower k)%string h with
  | Some kv => Some (snd kv)
  | None => None
  end.

(** Response bodies. *)
Record UserResponse : Type := mkUserResponse {
  ur_id : string;
  ur_email : string;
  ur_name : string;
  ur_role : string;
  ur_profile_image_url : string;
  ur_extra_sso : option string
}.

(** The session payload of the token-issuing endpoints. *)
Record SigninResponse : Type := mkSigninResponse {
  token : string;
  token_type : string;
  id : string;
  email : string;
  name : string;
  role : string;
  profile_image_url : string;
  extra_sso : option string
}.

(** The identity an SSO provider hands back ([sso.verify_and_process]). *)
Record OpenID : Type := mkOpenID {
  sso_email : option string;
  sso_display_name : option string;
  sso_claims : list (string * string);
  sso_access_token : option string
}.

Definition with_access_token (u : OpenID) (t : option string) : OpenID :=
  mkOpenID (sso_email u) (sso_display_name u) (sso_claims u) t.

(** ** Errors *)

(** [ERROR_MESSAGES] of the constants module, by the names the handlers
    use, and the exceptions that carry them. *)
Inductive ErrorMessage : Type :=
| ACCESS_PROHIBITED
| INVALID_EMAIL_FORMAT
| EMAIL_TAKEN
| CREATE_USER_ERROR
| ACTION_PROHIBITED
| INVALID_PASSWORD
| INVALID_CRED
| INVALID_TRUSTED_HEADER
| CREATE_API_KEY_ERROR
| API_KEY_NOT_FOUND
| DEFAULT (err : option Exception)
| Detail (text : string)
with Exception : Type :=
| HTTPException (status_code : nat) (detail : ErrorMessage)
| AttributeError
| ValidationError.

(** ** Handlers as state-passing computations *)

Inductive Outcome (A : Type) : Type :=
| Return (a : A)
| Raise (e : Exception).
Arguments Return {A} a.
Arguments Raise {A} e.

Definition M (A : Type) : Type := World -> Outcome A * World.

Definition ret {A} (a : A) : M A := fun w => (Return a, w).
Definition raise {A} (e : Exception) : M A := fun w => (Raise e, w).
Definition bind {A B} (m : M A) (k : A -> M B) : M B :=
  fun w =>
    match m w with
    | (Return a, w') => k a w'
    | (Raise e, w') => (Raise e, w')
    end.

(** [try: body except Exception as err: handler]. *)
Definition try_except {A} (body : M A) (handler : Exception -> M A) : M A :=
  fun w =>
    match body w with
    | (Return a, w') => (Return a, w')
    | (Raise e, w') => handler e w'
    end.

Definition app_state {A} (field : AppState -> A) : M A :=
  fun w => (Return (field (state w)), w).
Definition set_app_state (f : AppState -> AppState) : M unit :=
  fun w => (Return tt, set_state w (f (state w))).
Definition query {A} (q : list User -> A) : M A :=
  fun w => (Return (q (db w)), w).
Definition execute {A} (q : list User -> A * list User) : M A :=
  fun w => let (a, d) := q (db w) in (Return a, set_db w d).

Declare Scope handler_scope.
Delimit Scope handler_scope with handler.
Notation "x <- m ;; k" := (bind m (fun x => k))
  (at level 100, m at next level, right associativity) : handler_scope.
Notation "m ;;; k" := (bind m (fun _ => k))
  (at level 100, right associativity) : handler_scope.
Open Scope handler_scope.

(** ** External collaborators *)

(** Capabilities the router imports from modules outside this file: the
    password hasher, the e-mail format check, the token issuer, the webhook
    notifier, the JSON serialisers, the message templates, the deployment
    constant for trusted-header mode and the defaults of optional form
    fields and arguments. *)
Class Externals : Type := {
  (** [config.WEBUI_AUTH_TRUSTED_EMAIL_HEADER] *)
  WEBUI_AUTH_TRUSTED_EMAIL_HEADER : option string;
  (** [utils.utils.get_password_hash] and the check that goes with it *)
  get_password_hash : string -> string;
  verify_password : string -> string -> bool;
  (** [utils.misc.validate_email_format] *)
  validate_email_format : string -> bool;
  (** [utils.misc.parse_duration] and [utils.utils.create_token] *)
  timedelta : Type;
  parse_duration : string -> option timedelta;
  create_token : string -> option timedelta -> string;
  (** Modelled from the spec: [utils.webhook.post_webhook], the fire-and-forget
      notifier of a sign-up; a best-effort side channel that reports whether
      the notification was delivered and never interrupts its caller. *)
  post_webhook : string -> string -> WebhookEvent -> bool;
  (** [constants.WEBHOOK_MESSAGES.USER_SIGNUP] *)
  USER_SIGNUP : string -> string;
  (** [user.model_dump_json(exclude_none=True)] *)
  model_dump_json : User -> string;
  (** [json.dumps(sso_user.__dict__)] *)
  json_dumps : OpenID -> string;
  (** Defaults of the optional fields of [SignupForm]. *)
  SignupForm_profile_image_url : string;
  SignupForm_extra_sso : option string;
  (** Default of the last parameter of [Auths.insert_new_auth]. *)
  insert_new_auth_role : string
}.

(** ** The credential store *)

(** The fields [Users.update_user_by_id] is asked to write. *)
Inductive UserField : Type :=
| F_name
| F_profile_image_url
| F_extra_sso.

Definition set_field (u : User) (f : UserField) (v : string) : User :=
  match f with
  | F_name =>
      mkUser (user_id u) (user_email u) (user_password_hash u) v
        (user_role u) (user_profile_image_url u) (user_extra_sso u)
        (user_api_key u)
  | F_profile_image_url =>
      mkUser (user_id u) (user_email u) (user_password_hash u) (user_name u)
        (user_role u) v (user_extra_sso u) (user_api_key u)
  | F_extra_sso =>
      mkUser (user_id u) (user_email u) (user_password_hash u) (user_name u)
        (user_role u) (user_profile_image_url u) (Some v) (user_api_key u)
  end.

Definition set_role (r : string) (u : User) : User :=
  mkUser (user_id u) (user_email u) (user_password_hash u) (user_name u)
    r (user_profile_image_url u) (user_extra_sso u) (user_api_key u).

Definition set_api_key (k : option string) (u : User) : User :=
  mkUser (user_id u) (user_email u) (user_password_hash u) (user_name u)
    (user_role u) (user_profile_image_url u) (user_extra_sso u) k.

Definition set_password_hash (h : string) (u : User) : User :=
  mkUser (user_id u) (user_email u) h (user_name u)
    (user_role u) (user_profile_image_url u) (user_extra_sso u)
    (user_api_key u).

(** The table objects [Users] (of [apps.web.models.users]) and [Auths] (of
    [apps.web.models.auths]) are the Credential Store of the specification:
    lookup-by-email, lookup-by-id, insert, update-fields, count.  Rows are
    kept in insertion order; a lookup compares the stored value with the key
    as given; an update rewrites the rows with the given id. *)
Module Users.

(** Modelled from the spec: [Users.get_user_by_email], lookup-by-email; the
    first row whose stored e-mail is the key, if any. *)
Definition get_user_by_email (d : list User) (email : string)
  : option User :=
  find (fun u => user_email u =? email)%string d.

(** Modelled from the spec: [Users.get_user_by_id], lookup-by-id. *)
Definition get_user_by_id (d : list User) (id : string) : option User :=
  find (fun u => user_id u =? id)%string d.

(** Modelled from the spec: [Users.get_num_users], the count of rows. *)
Definition get_num_users (d : list User) : nat := length d.

(** Modelled from the spec: the write underneath every update, which
    rewrites the rows whose id is the one given. *)
Definition update_rows (d : list User) (id : string) (f : User -> User)
  : list User :=
  map (fun u => if (user_id u =? id)%string then f u else u) d.

(** Modelled from the spec: [Users.update_user_by_id], update-fields; the
    listed fields are written, in order, and the row is read back. *)
Definition update_user_by_id (id : string)
  (updated : list (UserField * string)) (d : list User)
  : option User * list User :=
  let d' :=
    update_rows d id
      (fun u => fold_left (fun acc fv => set_field acc (fst fv) (snd fv))
                  updated u) in
  (get_user_by_id d' id, d').

(** Modelled from the spec: [Users.update_user_role_by_id], the role change
    of a user; the row is read back. *)
Definition update_user_role_by_id (id : string) (role : string)
  (d : list User) : option User * list User :=
  let d' := update_rows d id (set_role role) in
  (get_user_by_id d' id, d').

(** Modelled from the spec: [Users.update_user_api_key_by_id], which sets
    or clears the single API key of a user and tells whether a row was
    there to write. *)
Definition update_user_api_key_by_id (id : string)
  (api_key : option string) (d : list User) : bool * list User :=
  match get_user_by_id d id with
  | Some _ => (true, update_rows d id (set_api_key api_key))
  | None => (false, d)
  end.

(** Modelled from the spec: [Users.get_user_api_key_by_id], the API key of
    a user, if the user is there and has one. *)
Definition get_user_api_key_by_id (d : list User) (id : string)
  : option string :=
  match get_user_by_id d id with
  | Some u => user_api_key u
  | None => None
  end.

End Users.

Module Auths.

(** Modelled from the spec: [Auths.insert_new_auth], the insert of a user
    record.  It is refused when the id or the e-mail is already present
    (both are unique in the store); a fresh record has no API key.  The
    positional parameters are in the order of the six-argument call in
    [signup]; [id] is the identifier drawn for the row. *)
Definition insert_new_auth (id email password name profile_image_url : string)
  (extra_sso : option string) (role : string) (d : list User)
  : option User * list User :=
  match Users.get_user_by_id d id, Users.get_user_by_email d email with
  | None, None =>
      let u := mkUser id email password name role profile_image_url
                 extra_sso None in
      (Some u, (d ++ [u])%list)
  | _, _ => (None, d)
  end.

(** Modelled from the spec: [Auths.authenticate_user]; the user with that
    e-mail, when the password verifies against the stored hash. *)
Definition authenticate_user `{Externals} (d : list User)
  (email password : string) : option User :=
  match Users.get_user_by_email d email with
  | Some u =>
      if verify_password password (user_password_hash u)
      then Some u else None
  | None => None
  end.

(** Modelled from the spec: [Auths.authenticate_user_by_trusted_header];
    the user with a pre-authenticated e-mail, no password asked. *)
Definition authenticate_user_by_trusted_header (d : list User)
  (email : string) : option User :=
  Users.get_user_by_email d email.

(** Modelled from the spec: [Auths.update_user_password_by_id], which
    replaces the stored hash and tells whether a row was there to write. *)
Definition update_user_password_by_id (id : string) (hashed : string)
  (d : list User) : bool * list User :=
  match Users.get_user_by_id d id with
  | Some _ => (true, Users.update_rows d id (set_password_hash hashed))
  | None => (false, d)
  end.

End Auths.

(** ** The route handlers *)

(** The pattern of [update_token_expires_duration], between its anchors:
    [(-1|0|(-?\d+(\.\d+)?)(ms|s|m|h|d|w))]. *)
Definition duration_pattern : Re.regex :=
  Re.Alt (Re.Lit "-1")
    (Re.Alt (Re.Lit "0")
       (Re.Seq
          (Re.Seq (Re.Opt (Re.Lit "-"))
             (Re.Seq (Re.Plus Re.Digit)
                (Re.Opt (Re.Seq (Re.Lit ".") (Re.Plus Re.Digit)))))
          (Re.Alt (Re.Lit "ms")
             (Re.Alt (Re.Lit "s")
                (Re.Alt (Re.Lit "m")
                   (Re.Alt (Re.Lit "h")
                      (Re.Alt (Re.Lit "d") (Re.Lit "w")))))))).

Section Router.

Context `{Ext : Externals}.

Definition is_some {A} (o : option A) : bool :=
  match o with Some _ => true | None => false end.

(** The session payload built from a user row, a token and the value
    placed under ["extra_sso"]. *)
Definition session_payload (tok : string) (user : User)
  (sso : option string) : SigninResponse :=
  {| token := tok;
     token_type := "Bearer";
     id := user_id user;
     email := user_email user;
     name := user_name user;
     role := user_role user;
     profile_image_url := user_profile_image_url user;
     extra_sso := sso |}.

(** [GET /] *)
Definition get_session_user (user : User) : M UserResponse :=
  ret {| ur_id := user_id user;
         ur_email := user_email user;
         ur_name := user_name user;
         ur_role := user_role user;
         ur_profile_image_url := user_profile_image_url user;
         ur_extra_sso := user_extra_sso user |}.

(** [POST /update/profile] *)
Definition update_profile (form_data : UpdateProfileForm)
  (session_user : option User) : M User :=
  match session_user with
  | Some su =>
      user <- execute (Users.update_user_by_id (user_id su)
                [(F_profile_image_url, profile_form_image_url form_data);
                 (F_name, profile_form_name form_data)]) ;;
      match user with
      | Some user => ret user
      | None => raise (HTTPException 400 (DEFAULT None))
      end
  | None => raise (HTTPException 400 INVALID_CRED)
  end.

(** [POST /update/password] *)
Definition update_password (form_data : UpdatePasswordForm)
  (session_user : option User) : M bool :=
  if truthy_opt WEBUI_AUTH_TRUSTED_EMAIL_HEADER
  then raise (HTTPException 400 ACTION_PROHIBITED)
  else
    match session_user with
    | Some su =>
        user <- query (fun d => Auths.authenticate_user d (user_email su)
                                  (form_password form_data)) ;;
        match user with
        | Some user =>
            let hashed := get_password_hash (form_new_password form_data) in
            execute (Auths.update_user_password_by_id (user_id user) hashed)
        | None => raise (HTTPException 400 INVALID_PASSWORD)
        end
    | None => raise (HTTPException 400 INVALID_CRED)
    end.

(** The webhook call of [signup]: the notifier's answer is dropped; the
    world records what was sent and what the notifier reported. *)
Definition notify_signup (url : string) (user : User) : M unit :=
  fun w =>
    let message := USER_SIGNUP (user_name user) in
    let event :=
      {| event_action := "signup";
         event_message := USER_SIGNUP (user_name user);
         event_user := model_dump_json user |} in
    let delivered := post_webhook url message event in
    (Return tt, push_outbox w (mkWebhookCall url message event delivered)).

(** [POST /signup]; [new_id] is the identifier drawn for the new row. *)
Definition signup (new_id : string) (request : Request)
  (form_data : SignupForm) : M SigninResponse :=
  enabled <- app_state ENABLE_SIGNUP ;;
  if negb enabled
  then raise (HTTPException 403 ACCESS_PROHIBITED)
  else
    if negb (validate_email_format (lower (signup_email form_data)))
    then raise (HTTPException 400 INVALID_EMAIL_FORMAT)
    else
      existing <- query (fun d =>
        Users.get_user_by_email d (lower (signup_email form_data))) ;;
      if is_some existing
      then raise (HTTPException 400 EMAIL_TAKEN)
      else
        try_except
          (num_users <- query Users.get_num_users ;;
           default_role <- app_state DEFAULT_USER_ROLE ;;
           let role := if num_users =? 0 then "admin" else default_role in
           let hashed := get_password_hash (signup_password form_data) in
           user <- execute (Auths.insert_new_auth new_id
                     (lower (signup_email form_data))
                     hashed
                     (signup_name form_data)
                     (signup_profile_image_url form_data)
                     (signup_extra_sso form_data)
                     role) ;;
           match user with
           | Some user =>
               expires <- app_state JWT_EXPIRES_IN ;;
               let tok := create_token (user_id user)
                            (parse_duration expires) in
               url <- app_state WEBHOOK_URL ;;
               (if truthy url then notify_signup url user else ret tt) ;;;
               ret (session_payload tok user (Some ""))
           | None => raise (HTTPException 500 CREATE_USER_ERROR)
           end)
          (fun err => raise (HTTPException 500 (DEFAULT (Some err)))).

(** The configured header name when trusted-header mode is active
    ([if WEBUI_AUTH_TRUSTED_EMAIL_HEADER:]). *)
Definition trusted_header : option string :=
  if truthy_opt WEBUI_AUTH_TRUSTED_EMAIL_HEADER
  then WEBUI_AUTH_TRUSTED_EMAIL_HEADER
  else None.

(** [POST /signin]; [new_id] and [new_password] are the random values
    drawn when trusted-header mode provisions an account. *)
Definition signin (new_id new_password : string) (request : Request)
  (form_data : SigninForm) : M SigninResponse :=
  user <-
    match trusted_header with
    | Some header =>
        match headers_get (headers request) header with
        | None => raise (HTTPException 400 INVALID_TRUSTED_HEADER)
        | Some value =>
            let trusted_email := lower value in
            known <- query (fun d =>
              Users.get_user_by_email d (lower trusted_email)) ;;
            (if negb (is_some known)
             then
               _ <- signup new_id request
                      {| signup_name := trusted_email;
                         signup_email := trusted_email;
                         signup_password := new_password;
                         signup_profile_image_url :=
                           SignupForm_profile_image_url;
                         signup_extra_sso := SignupForm_extra_sso |} ;;
               ret tt
             else ret tt) ;;;
            query (fun d =>
              Auths.authenticate_user_by_trusted_header d trusted_email)
        end
    | None =>
        query (fun d => Auths.authenticate_user d
                          (lower (signin_email form_data))
                          (signin_password form_data))
    end ;;
  match user with
  | Some user =>
      expires <- app_state JWT_EXPIRES_IN ;;
      let tok := create_token (user_id user) (parse_duration expires) in
      ret (session_payload tok user (Some ""))
  | None => raise (HTTPException 400 INVALID_CRED)
  end.

(** [POST /add]; the insert is called with five positional arguments, so
    the form's role fills the fifth parameter and the sixth takes its
    default. *)
Definition add_user (new_id : string) (form_data : AddUserForm)
  (user : User) : M SigninResponse :=
  if negb (validate_email_format (lower (add_email form_data)))
  then raise (HTTPException 400 INVALID_EMAIL_FORMAT)
  else
    existing <- query (fun d =>
      Users.get_user_by_email d (lower (add_email form_data))) ;;
    if is_some existing
    then raise (HTTPException 400 EMAIL_TAKEN)
    else
      try_except
        (let hashed := get_password_hash (add_password form_data) in
         user <- execute (Auths.insert_new_auth new_id
                   (lower (add_email form_data))
                   hashed
                   (add_name form_data)
                   (add_profile_image_url form_data)
                   (Some (add_role form_data))
                   insert_new_auth_role) ;;
         match user with
         | Some user =>
             let tok := create_token (user_id user) None in
             ret (session_payload tok user (Some ""))
         | None => raise (HTTPException 500 CREATE_USER_ERROR)
         end)
        (fun err => raise (HTTPException 500 (DEFAULT (Some err)))).

(** [GET /signup/enabled] and [GET /signup/enabled/toggle] *)
Definition get_sign_up_status (user : User) : M bool :=
  app_state ENABLE_SIGNUP.

Definition toggle_sign_up (user : User) : M bool :=
  set_app_state (fun s =>
    mkAppState (negb (ENABLE_SIGNUP s)) (DEFAULT_USER_ROLE s)
      (JWT_EXPIRES_IN s) (WEBHOOK_URL s)) ;;;
  app_state ENABLE_SIGNUP.

(** [GET /signup/user/role] and [POST /signup/user/role] *)
Definition get_default_user_role (user : User) : M string :=
  app_state DEFAULT_USER_ROLE.

Definition update_default_user_role (form_role : string) (user : User)
  : M string :=
  (if existsb (String.eqb form_role) ["pending"; "user"; "admin"]
   then set_app_state (fun s =>
          mkAppState (ENABLE_SIGNUP s) form_role
            (JWT_EXPIRES_IN s) (WEBHOOK_URL s))
   else ret tt) ;;;
  app_state DEFAULT_USER_ROLE.

(** [GET /token/expires] and [POST /token/expires/update] *)
Definition get_token_expires_duration (user : User) : M string :=
  app_state JWT_EXPIRES_IN.

Definition update_token_expires_duration (duration : string) (user : User)
  : M string :=
  if Re.match_anchored duration_pattern duration
  then
    set_app_state (fun s =>
      mkAppState (ENABLE_SIGNUP s) (DEFAULT_USER_ROLE s)
        duration (WEBHOOK_URL s)) ;;;
    app_state JWT_EXPIRES_IN
  else app_state JWT_EXPIRES_IN.

(** [POST /api_key]; [api_key] is the key [create_api_key()] generated. *)
Definition create_api_key_ (api_key : string) (user : User) : M string :=
  success <- execute
    (Users.update_user_api_key_by_id (user_id user) (Some api_key)) ;;
  if (success : bool)
  then ret api_key
  else raise (HTTPException 500 CREATE_API_KEY_ERROR).

(** [DELETE /api_key] *)
Definition delete_api_key (user : User) : M bool :=
  execute (Users.update_user_api_key_by_id (user_id user) None).

(** [GET /api_key] *)
Definition get_api_key (user : User) : M string :=
  api_key <- query (fun d => Users.get_user_api_key_by_id d (user_id user)) ;;
  match api_key with
  | Some k => if truthy k then ret k
              else raise (HTTPException 404 API_KEY_NOT_FOUND)
  | None => raise (HTTPException 404 API_KEY_NOT_FOUND)
  end.

(** [GET /signin/callback]; [verified] is what [sso.verify_and_process]
    handed back ([None] when it raised or found no identity),
    [access_token] is [sso.access_token], and [new_id], [new_password]
    are the random values drawn when an account is provisioned. *)
Definition signin_callback (new_id new_password : string)
  (request : Request) (verified : option OpenID)
  (access_token : option string) : M SigninResponse :=
  try_except
    (match verified with
     | None => raise AttributeError
     | Some verified_user =>
         let sso_user := with_access_token verified_user access_token in
         let sso_user_json_str := json_dumps sso_user in
         match sso_email sso_user with
         | None => raise AttributeError
         | Some sso_user_email =>
             let sso_user_display_name := sso_display_name sso_user in
             user <- query (fun d =>
               Users.get_user_by_email d (lower sso_user_email)) ;;
             user <-
               match user with
               | None =>
                   match sso_user_display_name with
                   | None => raise ValidationError
                   | Some display_name =>
                       _ <- signup new_id request
                              {| signup_name := display_name;
                                 signup_email := sso_user_email;
                                 signup_password := new_password;
                                 signup_profile_image_url := "/user.png";
                                 signup_extra_sso :=
                                   Some sso_user_json_str |} ;;
                       user <- query (fun d =>
                         Auths.authenticate_user_by_trusted_header d
                           (lower sso_user_email)) ;;
                       num_users <- query Users.get_num_users ;;
                       let role :=
                         if num_users =? 0 then "admin" else "user" in
                       match user with
                       | Some user =>
                           execute (Users.update_user_role_by_id
                                      (user_id user) role)
                       | None => raise AttributeError
                       end
                   end
               | Some user =>
                   execute (Users.update_user_by_id (user_id user)
                              [(F_extra_sso, sso_user_json_str)])
               end ;;
             match user with
             | Some user =>
                 expires <- app_state JWT_EXPIRES_IN ;;
                 let tok := create_token (user_id user)
                              (parse_duration expires) in
                 ret (session_payload tok user (user_extra_sso user))
             | None => raise AttributeError
             end
         end
     end)
    (fun e =>
       raise (HTTPException 500 (Detail "Error in signin_callback"))).

End Router.

(** ** A concrete deployment, for running the handlers *)

(** Password mode (no trusted header), a prefix-tagging hasher, an e-mail
    check that asks for an at sign, and a webhook notifier whose deliveries
    all fail. *)
Definition password_mode : Externals :=
  {| WEBUI_AUTH_TRUSTED_EMAIL_HEADER := None;
     get_password_hash := fun p => "hash:" ++ p;
     verify_password := fun p h => (h =? "hash:" ++ p)%string;
     validate_email_format := fun e =>
       existsb (Ascii.eqb "@"%char) (list_ascii_of_string e);
     timedelta := string;
     parse_duration := fun s =>
       if ((s =? "-1") || (s =? "0"))%string then None else Some s;
     create_token := fun uid _ => "token:" ++ uid;
     post_webhook := fun _ _ _ => false;
     USER_SIGNUP := fun n => "New user signed up: " ++ n;
     model_dump_json := fun u => user_id u;
     json_dumps := fun o =>
       match sso_email o with
       | Some e => "{email: " ++ e ++ "}"
       | None => "{}"
       end;
     SignupForm_profile_image_url := "/user.png";
     SignupForm_extra_sso := None;
     insert_new_auth_role := "pending" |}.

(** The same deployment behind a proxy that asserts the user's e-mail. *)
Definition trusted_header_mode : Externals :=
  {| WEBUI_AUTH_TRUSTED_EMAIL_HEADER := Some "X-Forwarded-Email";
     get_password_hash := @get_password_hash password_mode;
     verify_password := @verify_password password_mode;
     validate_email_format := @validate_email_format password_mode;
     timedelta := @timedelta password_mode;
     parse_duration := @parse_duration password_mode;
     create_token := @create_token password_mode;
     post_webhook := @post_webhook password_mode;
     USER_SIGNUP := @USER_SIGNUP password_mode;
     model_dump_json := @model_dump_json password_mode;
     json_dumps := @json_dumps password_mode;
     SignupForm_profile_image_url := "/user.png";
     SignupForm_extra_sso := None;
     insert_new_auth_role := "pending" |}.

Definition initial_state : AppState :=
  {| ENABLE_SIGNUP := true;
     DEFAULT_USER_ROLE := "pending";
     JWT_EXPIRES_IN := "-1";
     WEBHOOK_URL := "" |}.

Definition empty_world : World :=
  {| db := []; state := initial_state; outbox := [] |}.

Definition no_headers : Request := {| headers := [] |}.

(** ** Notions the properties are stated with *)

(** The inputs the duration pattern admits under [re.match]: a text of the
    pattern, with or without one final newline. *)
Definition duration_well_formed (duration : string) : Prop :=
  Re.lang duration_pattern duration \/
  exists t, duration = (t ++ String "010" "")%string /\
            Re.lang duration_pattern t.

(** No two rows share an id. *)
Definition unique_ids (d : list User) : Prop := NoDup (map user_id d).

(** A row with its SSO metadata replaced. *)
Definition refresh_extra_sso (json : string) (u : User) : User :=
  set_field u F_extra_sso json.

(** The table after the rows with id [uid] had their SSO metadata
    replaced. *)
Definition db_with_extra_sso (d : list User) (uid json : string)
  : list User :=
  map (fun x => if (user_id x =? uid)%string
                then refresh_extra_sso json x else x) d.

(** What a successful [signup] computes. *)
Section SignupModel.

Context `{Ext : Externals}.

(** The role [signup] picks in a given world. *)
Definition signup_role (w : World) : string :=
  if Users.get_num_users (db w) =? 0
  then "admin" else DEFAULT_USER_ROLE (state w).

(** The row [signup] inserts. *)
Definition signup_row (new_id : string) (form_data : SignupForm)
  (w : World) : User :=
  {| user_id := new_id;
     user_email := lower (signup_email form_data);
     user_password_hash := get_password_hash (signup_password form_data);
     user_name := signup_name form_data;
     user_role := signup_role w;
     user_profile_image_url := signup_profile_image_url form_data;
     user_extra_sso := signup_extra_sso form_data;
     user_api_key := None |}.

(** What the notifier is handed for a new row. *)
Definition signup_event (user : User) : WebhookEvent :=
  {| event_action := "signup";
     event_message := USER_SIGNUP (user_name user);
     event_user := model_dump_json user |}.

(** The world a successful [signup] leaves. *)
Definition signup_world (new_id : string) (form_data : SignupForm)
  (w : World) : World :=
  let user := signup_row new_id form_data w in
  let w1 := set_db w (db w ++ [user])%list in
  if truthy (WEBHOOK_URL (state w))
  then push_outbox w1
         (mkWebhookCall (WEBHOOK_URL (state w))
            (USER_SIGNUP (user_name user)) (signup_event user)
            (post_webhook (WEBHOOK_URL (state w))
               (USER_SIGNUP (user_name user)) (signup_event user)))
  else w1.

(** The payload a successful [signup] returns. *)
Definition signup_payload (new_id : string) (form_data : SignupForm)
  (w : World) : SigninResponse :=
  session_payload
    (create_token new_id (parse_duration (JWT_EXPIRES_IN (state w))))
    (signup_row new_id form_data w) (Some "").

(** The four conditions under which [signup] creates a user. *)
Definition signup_admissible (new_id : string) (form_data : SignupForm)
  (w : World) : Prop :=
  ENABLE_SIGNUP (state w) = true /\
  validate_email_format (lower (signup_email form_data)) = true /\
  Users.get_user_by_email (db w) (lower (signup_email form_data)) = None /\
  Users.get_user_by_id (db w) new_id = None.

End SignupModel.

(** Every stored e-mail is in lower case and passes the format check: the
    shape in which the inserting handlers store it. *)
Definition normalized `{Ext : Externals} (d : list User) : Prop :=
  Forall (fun u => lower (user_email u) = user_email u /\
                   validate_email_format (user_email u) = true) d.

(** The sentence about the role at sign-up, read literally, for one call:
    the created user is [admin] if and only if the table was empty, and has
    the configured default role otherwise. *)
Definition signup_admin_iff_first `{Ext : Externals} (new_id : string)
  (request : Request) (form_data : SignupForm) (w : World) : Prop :=
  ENABLE_SIGNUP (state w) = true ->
  validate_email_format (lower (signup_email form_data)) = true ->
  Users.get_user_by_email (db w) (lower (signup_email form_data)) = None ->
  forall p w',
    signup new_id request form_data w = (Return p, w') ->
    (role p = "admin" <-> Users.get_num_users (db w) = 0) /\
    (Users.get_num_users (db w) <> 0 ->
     role p = DEFAULT_USER_ROLE (state w)).

(** The sentence about a registered e-mail, read literally, for one call:
    when some row holds the e-mail up to case, the call raises
    [EMAIL_TAKEN] and the world is unchanged. *)
Definition signup_registered_is_taken `{Ext : Externals} (new_id : string)
  (request : Request) (form_data : SignupForm) (w : World) : Prop :=
  forall u,
    In u (db w) ->
    lower (user_email u) = lower (signup_email form_data) ->
    signup new_id request form_data w =
    (Raise (HTTPException 400 EMAIL_TAKEN), w).

(** ** Sample users and worlds *)

(** Carol, an ordinary user with a password. *)
Definition carol : User :=
  {| user_id := "id-7";
     user_email := "carol@example.com";
     user_password_hash := "hash:secret";
     user_name := "Carol";
     user_role := "user";
     user_profile_image_url := "/user.png";
     user_extra_sso := None;
     user_api_key := None |}.

Definition carol_world : World :=
  {| db := [carol]; state := initial_state; outbox := [] |}.

(** What the provider asserts about Carol and about Alice. *)
Definition carol_identity : OpenID :=
  {| sso_email := Some "Carol@Example.com";
     sso_display_name := Some "Carol C.";
     sso_claims := [("provider", "microsoft")];
     sso_access_token := None |}.

(** Carol after an SSO login: her row holds the identity payload. *)
Definition carol_sso_world : World :=
  set_db carol_world [refresh_extra_sso "{email: Carol@Example.com}" carol].

(** Alice is the first to sign up, and so the administrator. *)
Definition alice_form : SignupForm :=
  {| signup_name := "Alice";
     signup_email := "Alice@Example.com";
     signup_password := "wonderland";
     signup_profile_image_url := "/user.png";
     signup_extra_sso := None |}.

Definition alice : User :=
  {| user_id := "id-1";
     user_email := "alice@example.com";
     user_password_hash := "hash:wonderland";
     user_name := "Alice";
     user_role := "admin";
     user_profile_image_url := "/user.png";
     user_extra_sso := None;
     user_api_key := None |}.

Definition alice_world : World :=
  {| db := [alice]; state := initial_state; outbox := [] |}.

Definition alice_identity : OpenID :=
  {| sso_email := Some "Alice@Example.com";
     sso_display_name := Some "Alice";
     sso_claims := [("provider", "microsoft")];
     sso_access_token := None |}.

(** Alice has made [admin] the default role. *)
Definition default_admin_world : World :=
  {| db := [alice];
     state := {| ENABLE_SIGNUP := true;
                 DEFAULT_USER_ROLE := "admin";
                 JWT_EXPIRES_IN := "-1";
                 WEBHOOK_URL := "" |};
     outbox := [] |}.

(** Alice has closed sign-up. *)
Definition closed_world : World :=
  {| db := [alice];
     state := {| ENABLE_SIGNUP := false;
                 DEFAULT_USER_ROLE := "pending";
                 JWT_EXPIRES_IN := "-1";
                 WEBHOOK_URL := "" |};
     outbox := [] |}.

(** A deployment with a webhook configured. *)
Definition hooked_world : World :=
  {| db := [alice];
     state := {| ENABLE_SIGNUP := true;
                 DEFAULT_USER_ROLE := "pending";
                 JWT_EXPIRES_IN := "2w";
                 WEBHOOK_URL := "https://hooks.example.com/signup" |};
     outbox := [] |}.

(** Later sign-ups and an account added by the administrator. *)
Definition bob_form : SignupForm :=
  {| signup_name := "Bob";
     signup_email := "bob@example.com";
     signup_password := "builder";
     signup_profile_image_url := "/user.png";
     signup_extra_sso := None |}.

Definition dave_sso_form : SignupForm :=
  {| signup_name := "Dave";
     signup_email := "dave@example.com";
     signup_password := "random";
     signup_profile_image_url := "/user.png";
     signup_extra_sso := Some "{email: dave@example.com}" |}.

Definition erin_form : AddUserForm :=
  {| add_name := "Erin";
     add_email := "Erin@Example.com";
     add_password := "pw";
     add_profile_image_url := "/user.png";
     add_role := "user" |}.

Definition foo_form : SignupForm :=
  {| signup_name := "Foo";
     signup_email := "Foo@Bar.com";
     signup_password := "s3cret";
     signup_profile_image_url := "/user.png";
     signup_extra_sso := None |}.

(** The table after Foo signed up first. *)
Definition foo_world : World :=
  {| db := [@signup_row password_mode "id-1" foo_form empty_world];
     state := initial_state;
     outbox := [] |}.

(** ** The router as a machine *)

(** One request to the router, with the values it draws or is handed. *)
Inductive Call : Type :=
| Call_get_session_user (user : User)
| Call_update_profile (form_data : UpdateProfileForm)
    (session_user : option User)
| Call_update_password (form_data : UpdatePasswordForm)
    (session_user : option User)
| Call_signin (new_id new_password : string) (request : Request)
    (form_data : SigninForm)
| Call_signup (new_id : string) (request : Request) (form_data : SignupForm)
| Call_add_user (new_id : string) (form_data : AddUserForm) (user : User)
| Call_get_sign_up_status (user : User)
| Call_toggle_sign_up (user : User)
| Call_get_default_user_role (user : User)
| Call_update_default_user_role (form_role : string) (user : User)
| Call_get_token_expires_duration (user : User)
| Call_update_token_expires_duration (duration : string) (user : User)
| Call_create_api_key (api_key : string) (user : User)
| Call_delete_api_key (user : User)
| Call_get_api_key (user : User)
| Call_signin_callback (new_id new_password : string) (request : Request)
    (verified : option OpenID) (access_token : option string).

Section Machine.

Context `{Ext : Externals}.

(** The world a request leaves, whether it returned or raised. *)
Definition serve (c : Call) (w : World) : World :=
  match c with
  | Call_get_session_user user => snd (get_session_user user w)
  | Call_update_profile form_data session_user =>
      snd (update_profile form_data session_user w)
  | Call_update_password form_data session_user =>
      snd (update_password form_data session_user w)
  | Call_signin new_id new_password request form_data =>
      snd (signin new_id new_password request form_data w)
  | Call_signup new_id request form_data =>
      snd (signup new_id request form_data w)
  | Call_add_user new_id form_data user =>
      snd (add_user new_id form_data user w)
  | Call_get_sign_up_status user => snd (get_sign_up_status user w)
  | Call_toggle_sign_up user => snd (toggle_sign_up user w)
  | Call_get_default_user_role user => snd (get_default_user_role user w)
  | Call_update_default_user_role form_role user =>
      snd (update_default_user_role form_role user w)
  | Call_get_token_expires_duration user =>
      snd (get_token_expires_duration user w)
  | Call_update_token_expires_duration duration user =>
      snd (update_token_expires_duration duration user w)
  | Call_create_api_key api_key user => snd (create_api_key_ api_key user w)
  | Call_delete_api_key user => snd (delete_api_key user w)
  | Call_get_api_key user => snd (get_api_key user w)
  | Call_signin_callback new_id new_password request verified access_token =>
      snd (signin_callback new_id new_password request verified
             access_token w)
  end.

(** The world after a run of requests, served one after the other. *)
Definition serve_all (cs : list Call) (w : World) : World :=
  fold_left (fun acc c => serve c acc) cs w.

(** The ways the handlers write to the table: a rewrite of the rows with
    one id that leaves ids and e-mails alone, and the insert of a row whose
    id and e-mail are new and whose e-mail is in lower case and passed the
    format check. *)
Inductive evolves : list User -> list User -> Prop :=
| evolves_refl (d : list User) : evolves d d
| evolves_update (d : list User) (uid : string) (f : User -> User) :
    (forall u, user_id (f u) = user_id u) ->
    (forall u, user_email (f u) = user_email u) ->
    evolves d (Users.update_rows d uid f)
| evolves_insert (d : list User) (u : User) :
    Users.get_user_by_id d (user_id u) = None ->
    Users.get_user_by_email d (user_email u) = None ->
    lower (user_email u) = user_email u ->
    validate_email_format (user_email u) = true ->
    evolves d (d ++ [u])%list
| evolves_trans (d1 d2 d3 : list User) :
    evolves d1 d2 -> evolves d2 d3 -> evolves d1 d3.

(** The form [signin] and [signin_callback] hand to [signup]. *)
Definition trusted_signup_form (trusted_email new_password : string)
  : SignupForm :=
  {| signup_name := trusted_email;
     signup_email := trusted_email;
     signup_password := new_password;
     signup_profile_image_url := SignupForm_profile_image_url;
     signup_extra_sso := SignupForm_extra_sso |}.

Definition sso_signup_form (display_name sso_user_email new_password
                              sso_user_json_str : string) : SignupForm :=
  {| signup_name := display_name;
     signup_email := sso_user_email;
     signup_password := new_password;
     signup_profile_image_url := "/user.png";
     signup_extra_sso := Some sso_user_json_str |}.

End Machine.

(** The requests that write to the configuration. *)
Definition is_config_write (c : Call) : bool :=
  match c with
  | Call_toggle_sign_up _
  | Call_update_default_user_role _ _
  | Call_update_token_expires_duration _ _ => true
  | _ => false
  end.

(** What a request that is not a configuration write may do to the world:
    move the table by [evolves], leave the configuration alone, and hand
    the notifier at most one notification per row it adds, none when no
    webhook is configured. *)
Definition table_step `{Ext : Externals} (w w' : World) : Prop :=
  evolves (db w) (db w') /\
  state w' = state w /\
  exists sent,
    outbox w' = (outbox w ++ sent)%list /\
    length sent + length (db w) <= length (db w') /\
    (truthy (WEBHOOK_URL (state w)) = false -> sent = []).

(** The name and image a profile update writes. *)
Definition profile_written (form_data : UpdateProfileForm) (u : User)
  : User :=
  set_field (set_field u F_profile_image_url
               (profile_form_image_url form_data))
    F_name (profile_form_name form_data).

(** The roles the default role may take. *)
Definition valid_role (r : string) : Prop :=
  r = "pending" \/ r = "user" \/ r = "admin".

(** No two rows share an e-mail. *)
Definition unique_emails (d : list User) : Prop :=
  NoDup (map user_email d).

(** Every row of [d] is still in [d'], in place, under its id and e-mail. *)
Definition rows_kept (d d' : list User) : Prop :=
  exists l,
    map user_id d' = (map user_id d ++ map user_id l)%list /\
    map user_email d' = (map user_email d ++ map user_email l)%list.

(** A text made of digits only. *)
Fixpoint all_digits (s : string) : bool :=
  match s with
  | EmptyString => true
  | String c r => Re.is_digit c && all_digits r
  end.

(** The one error [signin_callback] lets out. *)
Definition callback_error : Exception :=
  HTTPException 500 (Detail "Error in signin_callback").


(** A run of requests: Alice signs up, Carol comes in through SSO, the
    default role is set, Bob signs up twice, Carol gets an API key,
    sign-up is closed, Erin is added, and a malformed expiry is
    submitted. *)
Definition sample_run : list Call :=
  [ Call_signup "id-1" no_headers alice_form;
    Call_signin_callback "id-8" "random" no_headers (Some carol_identity)
      (Some "at-1");
    Call_update_default_user_role "user" alice;
    Call_signup "id-2" no_headers bob_form;
    Call_signup "id-3" no_headers bob_form;
    Call_create_api_key "sk-c7" (mkUser "id-8" "" "" "" "" "" None None);
    Call_toggle_sign_up alice;
    Call_add_user "id-4" erin_form alice;
    Call_update_token_expires_duration "abc" alice ].

(** * Properties *)

(** ** Lower-casing *)

Lemma lower_ascii_idempotent (c : ascii) :
  lower_ascii (lower_ascii c) = lower_ascii c.
Proof.
  destruct c as [b0 b1 b2 b3 b4 b5 b6 b7].
  destruct b0, b1, b2, b3, b4, b5, b6, b7; reflexivity.
Qed.

Lemma lower_idempotent (s : string) : lower (lower s) = lower s.
Proof.
  induction s as [| c r IH]; simpl.
  - reflexivity.
  - now rewrite lower_ascii_idempotent, IH.
Qed.

Example lower_mixed_case : lower "Foo@Bar.com" = "foo@bar.com".
Proof. reflexivity. Qed.

(** ** The matcher against the denotation of patterns *)

Module ReFacts.
Import Re.

Lemma append_empty (s1 s2 : string) :
  (s1 ++ s2)%string = "" -> s1 = "" /\ s2 = "".
Proof.
  destruct s1; simpl; intros H; [auto | discriminate].
Qed.

Lemma nullable_lang (r : regex) : nullable r = true <-> lang r "".
Proof.
  induction r; simpl.
  - split; [discriminate | intros H; inversion H].
  - split; [constructor | reflexivity].
  - split; [discriminate | intros H; inversion H].
  - split; [discriminate | intros H; inversion H].
  - rewrite orb_true_iff, IHr1, IHr2. split.
    + intros [H | H]; [now apply L_AltL | now apply L_AltR].
    + intros H; inversion H; subst; auto.
  - rewrite andb_true_iff, IHr1, IHr2. split.
    + intros [H1 H2]. change "" with ("" ++ "")%string. now constructor.
    + intros H. inversion H; subst.
      match goal with
      | E : (_ ++ _)%string = "" |- _ =>
          apply append_empty in E; destruct E; subst
      end.
      auto.
  - split; [constructor | reflexivity].
Qed.

Lemma star_unfold (a : regex) (c : ascii) (s : string) :
  lang (Star a) (String c s) ->
  exists s1 s2,
    s = (s1 ++ s2)%string /\ lang a (String c s1) /\ lang (Star a) s2.
Proof.
  intros H.
  remember (Star a) as r eqn:Er.
  remember (String c s) as t eqn:Et.
  revert Er Et.
  induction H as [| | | | | | | r0 s1 s2 H1 _ H2 IH2]; try discriminate.
  intros Er Et. injection Er as ->.
  destruct s1 as [| c1 s1'].
  - simpl in Et. now apply IH2.
  - simpl in Et. injection Et as Ec Es. subst.
    exists s1', s2. auto.
Qed.

Lemma lang_alt_inv (r1 r2 : regex) (s : string) :
  lang (Alt r1 r2) s -> lang r1 s \/ lang r2 s.
Proof. intros H; inversion H; subst; auto. Qed.

Lemma lang_seq_inv (r1 r2 : regex) (s : string) :
  lang (Seq r1 r2) s ->
  exists s1 s2, s = (s1 ++ s2)%string /\ lang r1 s1 /\ lang r2 s2.
Proof. intros H; inversion H; subst; eauto. Qed.

Lemma lang_seq_cons (c : ascii) (r1 r2 : regex) (s1 s2 : string) :
  lang r1 (String c s1) -> lang r2 s2 ->
  lang (Seq r1 r2) (String c (s1 ++ s2)).
Proof.
  intros H1 H2.
  change (String c (s1 ++ s2)) with (String c s1 ++ s2)%string.
  now constructor.
Qed.

Lemma deriv_lang (c : ascii) (r : regex) :
  forall s, lang (deriv c r) s <-> lang r (String c s).
Proof.
  induction r as [| | d | | a IHa b IHb | a IHa b IHb | a IHa];
    intros s; simpl.
  - split; intros H; inversion H.
  - split; intros H; inversion H.
  - destruct (Ascii.eqb_spec c d) as [-> | Hne].
    + split; intros H; inversion H; subst; constructor.
    + split; intros H; inversion H; subst; congruence.
  - destruct (is_digit c) eqn:Hd.
    + split; intros H; inversion H; subst; now constructor.
    + split; intros H; inversion H; subst; congruence.
  - split; intros H; apply lang_alt_inv in H; destruct H as [H | H].
    + apply L_AltL. now apply IHa.
    + apply L_AltR. now apply IHb.
    + apply L_AltL. now apply IHa.
    + apply L_AltR. now apply IHb.
  - destruct (nullable a) eqn:Hn.
    + split; intros H.
      * apply lang_alt_inv in H. destruct H as [H | H].
        -- apply lang_seq_inv in H. destruct H as (s1 & s2 & -> & H1 & H2).
           apply lang_seq_cons; [now apply IHa | assumption].
        -- change (String c s) with ("" ++ String c s)%string.
           constructor; [now apply nullable_lang | now apply IHb].
      * apply lang_seq_inv in H. destruct H as (s1 & s2 & E & H1 & H2).
        destruct s1 as [| c1 s1']; simpl in E.
        -- subst s2. apply L_AltR. now apply IHb.
        -- injection E as Ec Es. subst. apply L_AltL.
           constructor; [now apply IHa | assumption].
    + split; intros H.
      * apply lang_seq_inv in H. destruct H as (s1 & s2 & -> & H1 & H2).
        apply lang_seq_cons; [now apply IHa | assumption].
      * apply lang_seq_inv in H. destruct H as (s1 & s2 & E & H1 & H2).
        destruct s1 as [| c1 s1']; simpl in E.
        -- apply nullable_lang in H1. congruence.
        -- injection E as Ec Es. subst.
           constructor; [now apply IHa | assumption].
  - split; intros H.
    + apply lang_seq_inv in H. destruct H as (s1 & s2 & -> & H1 & H2).
      change (String c (s1 ++ s2)) with (String c s1 ++ s2)%string.
      apply L_StarCons; [now apply IHa | assumption].
    + apply star_unfold in H. destruct H as (s1 & s2 & -> & H1 & H2).
      constructor; [now apply IHa | assumption].
Qed.

(** The matcher decides membership in the denotation. *)
Lemma fullmatch_lang (s : string) :
  forall r, fullmatch r s = true <-> lang r s.
Proof.
  induction s as [| c s IH]; intros r; simpl.
  - apply nullable_lang.
  - rewrite IH. apply deriv_lang.
Qed.

Lemma append_newline_nonempty (t : string) :
  (t ++ String "010" "")%string <> "".
Proof. destruct t; discriminate. Qed.

Lemma before_final_newline_spec (s : string) :
  forall t,
    before_final_newline s = Some t <-> s = (t ++ String "010" "")%string.
Proof.
  induction s as [| c s IH]; intros t.
  - simpl. split; [discriminate |].
    intros E. symmetry in E. now apply append_newline_nonempty in E.
  - destruct s as [| c' s'].
    + simpl. destruct (Ascii.eqb_spec c "010"%char) as [-> | Hne].
      * split.
        -- intros [= <-]. reflexivity.
        -- destruct t as [| ct t']; [reflexivity |].
           simpl. intros [= _ E]. symmetry in E.
           now apply append_newline_nonempty in E.
      * split; [discriminate |].
        destruct t as [| ct t']; simpl.
        -- intros [= E]. congruence.
        -- intros [= _ E]. symmetry in E.
           now apply append_newline_nonempty in E.
    + change (before_final_newline (String c (String c' s')))
        with (match before_final_newline (String c' s') with
              | Some t0 => Some (String c t0)
              | None => None
              end).
      split.
      * destruct (before_final_newline (String c' s')) as [t0 |] eqn:E0;
          [| discriminate].
        intros [= <-]. simpl. f_equal. now apply IH.
      * intros E. destruct t as [| ct t']; simpl in E; [discriminate |].
        injection E as <- E. apply IH in E. now rewrite E.
Qed.

(** [re.match] with [^...$]: the text, or the text before a final
    newline, belongs to the pattern. *)
Lemma match_anchored_spec (r : regex) (s : string) :
  match_anchored r s = true <->
  lang r s \/ exists t, s = (t ++ String "010" "")%string /\ lang r t.
Proof.
  unfold match_anchored. rewrite orb_true_iff, fullmatch_lang.
  split; intros [H | H]; auto; right.
  - destruct (before_final_newline s) as [t |] eqn:E; [| discriminate].
    exists t. split; [now apply before_final_newline_spec |].
    now apply fullmatch_lang.
  - destruct H as (t & Hs & Ht).
    apply before_final_newline_spec in Hs. rewrite Hs.
    now apply fullmatch_lang.
Qed.

End ReFacts.

(** ** Stepping through a handler *)

Ltac run :=
  unfold bind, ret, raise, try_except, app_state, set_app_state, query,
    execute in *;
  simpl in *.

(** ** The credential store *)

Section StoreFacts.

Lemma find_app_split {A} (f : A -> bool) (l1 l2 : list A) :
  find f (l1 ++ l2)%list =
  match find f l1 with
  | Some x => Some x
  | None => find f l2
  end.
Proof.
  induction l1 as [| a l1 IH]; simpl; [reflexivity |].
  destruct (f a); [reflexivity | exact IH].
Qed.

Lemma find_In_not_none {A} (f : A -> bool) (l : list A) (x : A) :
  In x l -> f x = true -> find f l <> None.
Proof.
  intros Hin Hf Hnone.
  pose proof (find_none f l Hnone x Hin). congruence.
Qed.

(** Reading a row back after an update that keeps ids in place. *)
Lemma get_user_by_id_update_rows (d : list User) (id : string)
  (f : User -> User) :
  (forall u, user_id (f u) = user_id u) ->
  Users.get_user_by_id (Users.update_rows d id f) id =
  option_map f (Users.get_user_by_id d id).
Proof.
  intros Hid. unfold Users.get_user_by_id, Users.update_rows.
  induction d as [| u d IH]; simpl; [reflexivity |].
  destruct (user_id u =? id)%string eqn:E.
  - now rewrite Hid, E.
  - now rewrite E.
Qed.

Lemma update_rows_map {B} (g : User -> B) (d : list User) (id : string)
  (f : User -> User) :
  (forall u, g (f u) = g u) ->
  map g (Users.update_rows d id f) = map g d.
Proof.
  intros Hg. unfold Users.update_rows. rewrite map_map.
  apply map_ext. intros u. destruct (user_id u =? id)%string; auto.
Qed.

(** A row found by e-mail is in the table, under its own id. *)
Lemma get_user_by_email_some (d : list User) (e : string) (u : User) :
  Users.get_user_by_email d e = Some u -> In u d /\ user_email u = e.
Proof.
  unfold Users.get_user_by_email. intros H.
  apply find_some in H. destruct H as [Hin Heq].
  split; [assumption | now apply String.eqb_eq].
Qed.

Lemma get_user_by_id_of_member (d : list User) (u : User) :
  In u d ->
  exists u0, Users.get_user_by_id d (user_id u) = Some u0 /\
             user_id u0 = user_id u.
Proof.
  intros Hin. unfold Users.get_user_by_id.
  destruct (find (fun x => user_id x =? user_id u)%string d) as [u0 |] eqn:E.
  - exists u0. split; [reflexivity |].
    apply find_some in E. now apply String.eqb_eq.
  - exfalso. revert E. apply find_In_not_none with (x := u); auto.
    apply String.eqb_refl.
Qed.

End StoreFacts.

(** ** Password update in trusted-header mode *)

(** C5: when the trusted-email header name is configured (trusted-header
    mode is active), every [update_password] call, whatever the session user
    and the submitted passwords, raises the 400 [ACTION_PROHIBITED] error
    and leaves the world, hence every stored password, as it was. *)
Theorem update_password_prohibited_with_trusted_header
  `{Ext : Externals} (form_data : UpdatePasswordForm)
  (session_user : option User) (w : World) :
  truthy_opt WEBUI_AUTH_TRUSTED_EMAIL_HEADER = true ->
  update_password form_data session_user w =
  (Raise (HTTPException 400 ACTION_PROHIBITED), w).
Proof.
  intros Hmode. unfold update_password. rewrite Hmode. reflexivity.
Qed.

Lemma update_password_prohibited_with_trusted_header_witness :
  truthy_opt (@WEBUI_AUTH_TRUSTED_EMAIL_HEADER trusted_header_mode) = true /\
  @update_password trusted_header_mode
    (mkUpdatePasswordForm "secret" "changed") (Some carol) carol_world =
  (Raise (HTTPException 400 ACTION_PROHIBITED), carol_world).
Proof.
  split.
  - reflexivity.
  - apply (@update_password_prohibited_with_trusted_header
             trusted_header_mode).
    reflexivity.
Defined.

(** Without the header the same call goes through and replaces the hash. *)
Example update_password_in_password_mode :
  @update_password password_mode
    (mkUpdatePasswordForm "secret" "changed") (Some carol) carol_world =
  (Return true,
   set_db carol_world [set_password_hash "hash:changed" carol]).
Proof. reflexivity. Qed.

(** ** Token-expiry configuration *)

Example duration_2w : Re.match_anchored duration_pattern "2w" = true.
Proof. reflexivity. Qed.

Example duration_minus_one : Re.match_anchored duration_pattern "-1" = true.
Proof. reflexivity. Qed.

Example duration_zero : Re.match_anchored duration_pattern "0" = true.
Proof. reflexivity. Qed.

Example duration_abc : Re.match_anchored duration_pattern "abc" = false.
Proof. reflexivity. Qed.

Example duration_fraction :
  Re.match_anchored duration_pattern "-1.5ms" = true.
Proof. reflexivity. Qed.

Example duration_no_unit : Re.match_anchored duration_pattern "5" = false.
Proof. reflexivity. Qed.

(** C6: [update_token_expires_duration] stores the submitted duration as the
    JWT expiry when it matches the pattern
    [^(-1|0|(-?\d+(\.\d+)?)(ms|s|m|h|d|w))$] and keeps the prior value when it
    does not; either way it returns the value in effect after the call and
    touches nothing else.  The inputs 2w, -1 and 0 match; abc does not. *)
Theorem update_token_expires_duration_spec
  (duration : string) (user : User) (w : World) :
  exists w',
    update_token_expires_duration duration user w =
      (Return (JWT_EXPIRES_IN (state w')), w') /\
    JWT_EXPIRES_IN (state w') =
      (if Re.match_anchored duration_pattern duration
       then duration else JWT_EXPIRES_IN (state w)) /\
    (Re.match_anchored duration_pattern duration = false /\ w' = w \/
     Re.match_anchored duration_pattern duration = true) /\
    ENABLE_SIGNUP (state w') = ENABLE_SIGNUP (state w) /\
    DEFAULT_USER_ROLE (state w') = DEFAULT_USER_ROLE (state w) /\
    WEBHOOK_URL (state w') = WEBHOOK_URL (state w) /\
    db w' = db w /\ outbox w' = outbox w /\
    (Re.match_anchored duration_pattern duration = true <->
     duration_well_formed duration) /\
    Re.match_anchored duration_pattern "2w" = true /\
    Re.match_anchored duration_pattern "-1" = true /\
    Re.match_anchored duration_pattern "0" = true /\
    Re.match_anchored duration_pattern "abc" = false.
Proof.
  pose proof (ReFacts.match_anchored_spec duration_pattern duration) as Hspec.
  fold (duration_well_formed duration) in Hspec.
  unfold update_token_expires_duration.
  destruct (Re.match_anchored duration_pattern duration) eqn:Hm.
  - exists (set_state w
              (mkAppState (ENABLE_SIGNUP (state w))
                 (DEFAULT_USER_ROLE (state w)) duration
                 (WEBHOOK_URL (state w)))).
    split; [reflexivity |]. simpl. intuition.
  - exists w. split; [reflexivity |]. intuition.
Qed.

(** The same in two halves, by the denotation of the pattern. *)
Lemma update_token_expires_duration_stores
  (duration : string) (user : User) (w : World) :
  duration_well_formed duration ->
  update_token_expires_duration duration user w =
  (Return duration,
   set_state w (mkAppState (ENABLE_SIGNUP (state w))
                  (DEFAULT_USER_ROLE (state w)) duration
                  (WEBHOOK_URL (state w)))).
Proof.
  intros H. apply ReFacts.match_anchored_spec in H.
  unfold update_token_expires_duration. rewrite H. reflexivity.
Qed.

Lemma update_token_expires_duration_ignores
  (duration : string) (user : User) (w : World) :
  ~ duration_well_formed duration ->
  update_token_expires_duration duration user w =
  (Return (JWT_EXPIRES_IN (state w)), w).
Proof.
  intros H. unfold update_token_expires_duration.
  destruct (Re.match_anchored duration_pattern duration) eqn:Hm.
  - exfalso. apply H. now apply ReFacts.match_anchored_spec.
  - reflexivity.
Qed.

(** ** API keys *)

Lemma set_api_key_id (k : option string) (u : User) :
  user_id (set_api_key k u) = user_id u.
Proof. reflexivity. Qed.

Lemma get_user_api_key_after_update (d : list User) (id : string)
  (k : option string) (u : User) :
  Users.get_user_by_id d id = Some u ->
  Users.get_user_api_key_by_id (Users.update_rows d id (set_api_key k)) id = k.
Proof.
  intros Hu. unfold Users.get_user_api_key_by_id.
  rewrite get_user_by_id_update_rows by apply set_api_key_id.
  now rewrite Hu.
Qed.

(** A call of [create_api_key_] succeeds exactly for a user with a row. *)
Lemma create_api_key_returns (api_key : string) (user : User) (w w1 : World)
  (k1 : string) :
  create_api_key_ api_key user w = (Return k1, w1) ->
  k1 = api_key /\
  (exists u, Users.get_user_by_id (db w) (user_id user) = Some u) /\
  w1 = set_db w (Users.update_rows (db w) (user_id user)
                   (set_api_key (Some api_key))).
Proof.
  unfold create_api_key_, Users.update_user_api_key_by_id. run.
  destruct (Users.get_user_by_id (db w) (user_id user)) as [u |] eqn:Hu;
    simpl; intros H; inversion H; subst.
  repeat split. now exists u.
Qed.

(** C8: when [create_api_key_] succeeds for a user (with the key it
    generated, a non-empty string), [get_api_key] for that user then returns
    that very key; and after [delete_api_key], in any world, [get_api_key]
    for that user raises the 404 [API_KEY_NOT_FOUND] error. *)
Theorem api_key_lifecycle (api_key : string) (user : User) (w w1 : World)
  (k1 : string) :
  truthy api_key = true ->
  create_api_key_ api_key user w = (Return k1, w1) ->
  k1 = api_key /\
  get_api_key user w1 = (Return k1, w1) /\
  forall w0 : World,
    get_api_key user (snd (delete_api_key user w0)) =
    (Raise (HTTPException 404 API_KEY_NOT_FOUND),
     snd (delete_api_key user w0)).
Proof.
  intros Hkey Hcreate.
  apply create_api_key_returns in Hcreate.
  destruct Hcreate as (-> & [u Hu] & ->).
  split; [reflexivity |]. split.
  - unfold get_api_key. run.
    rewrite (get_user_api_key_after_update _ _ _ _ Hu).
    now rewrite Hkey.
  - intros w0. unfold get_api_key, delete_api_key,
      Users.update_user_api_key_by_id. run.
    destruct (Users.get_user_by_id (db w0) (user_id user)) as [u0 |] eqn:Hu0;
      simpl.
    + now rewrite (get_user_api_key_after_update _ _ _ _ Hu0).
    + unfold Users.get_user_api_key_by_id. now rewrite Hu0.
Qed.

Lemma api_key_lifecycle_witness :
  create_api_key_ "sk-0f3a" carol carol_world =
  (Return "sk-0f3a",
   set_db carol_world [set_api_key (Some "sk-0f3a") carol]) /\
  get_api_key carol
    (set_db carol_world [set_api_key (Some "sk-0f3a") carol]) =
  (Return "sk-0f3a",
   set_db carol_world [set_api_key (Some "sk-0f3a") carol]) /\
  get_api_key carol (snd (delete_api_key carol carol_world)) =
  (Raise (HTTPException 404 API_KEY_NOT_FOUND),
   snd (delete_api_key carol carol_world)).
Proof.
  destruct (api_key_lifecycle "sk-0f3a" carol carol_world
              (set_db carol_world [set_api_key (Some "sk-0f3a") carol])
              "sk-0f3a" eq_refl eq_refl)
    as (_ & Hget & Hdel).
  split; [reflexivity |].
  split; [exact Hget | exact (Hdel carol_world)].
Defined.

(** A key replaces the one before it. *)
Example api_key_regenerated :
  fst (get_api_key carol
         (snd (create_api_key_ "sk-2" carol
                 (snd (create_api_key_ "sk-1" carol carol_world))))) =
  Return "sk-2".
Proof. reflexivity. Qed.

(** ** Row identifiers *)

Lemma get_user_by_id_unique (d : list User) (u : User) :
  unique_ids d -> In u d -> Users.get_user_by_id d (user_id u) = Some u.
Proof.
  unfold unique_ids, Users.get_user_by_id.
  induction d as [| x d IH]; simpl; intros Hnd Hin; [contradiction |].
  inversion Hnd as [| ? ? Hnotin Hnd']; subst.
  destruct Hin as [-> | Hin].
  - now rewrite String.eqb_refl.
  - destruct (String.eqb_spec (user_id x) (user_id u)) as [E | _].
    + exfalso. apply Hnotin. rewrite E. now apply in_map.
    + now apply IH.
Qed.

Lemma unique_ids_update_rows (d : list User) (id : string)
  (f : User -> User) :
  (forall u, user_id (f u) = user_id u) ->
  unique_ids d -> unique_ids (Users.update_rows d id f).
Proof.
  intros Hf Hd. unfold unique_ids.
  now rewrite (update_rows_map user_id d id f Hf).
Qed.

(** An insert keeps ids apart: it is refused when the id is taken. *)
Lemma unique_ids_insert_new_auth
  (id email password name profile_image_url : string)
  (extra_sso : option string) (role : string) (d : list User) :
  unique_ids d ->
  unique_ids (snd (Auths.insert_new_auth id email password name
                     profile_image_url extra_sso role d)).
Proof.
  intros Hd. unfold Auths.insert_new_auth.
  destruct (Users.get_user_by_id d id) as [u |] eqn:Hid; simpl;
    [assumption |].
  destruct (Users.get_user_by_email d email); simpl; [assumption |].
  unfold unique_ids. rewrite map_app. simpl.
  apply NoDup_app; [assumption | repeat constructor; intros [] | ].
  intros x Hx [<- | []].
  apply in_map_iff in Hx. destruct Hx as (u & Hu & Hin).
  unfold Users.get_user_by_id in Hid.
  pose proof (find_none _ _ Hid u Hin) as Hne. simpl in Hne.
  rewrite Hu, String.eqb_refl in Hne. discriminate.
Qed.

(** ** The SSO callback for a known e-mail *)

(** C7: when the federated e-mail already has a local user, the SSO callback
    succeeds and rewrites the table only in the [extra_sso] field of the rows
    with that user's id, which becomes the serialized identity payload;
    every row keeps its role, password hash, id, e-mail, name, profile image
    and API key, and the configuration and the webhook outbox are
    untouched. *)
Theorem signin_callback_existing_user_frame
  `{Ext : Externals} (new_id new_password : string) (request : Request)
  (verified : OpenID) (access_token : option string) (e : string)
  (u : User) (w : World) :
  sso_email verified = Some e ->
  Users.get_user_by_email (db w) (lower e) = Some u ->
  let json := json_dumps (with_access_token verified access_token) in
  let d' := db_with_extra_sso (db w) (user_id u) json in
  (exists p,
     signin_callback new_id new_password request (Some verified)
       access_token w = (Return p, set_db w d') /\
     id p = user_id u /\ extra_sso p = Some json) /\
  (forall x, In x (db w) -> user_id x <> user_id u -> In x d') /\
  (forall x, In x (db w) -> user_id x = user_id u ->
             In (refresh_extra_sso json x) d') /\
  map user_role d' = map user_role (db w) /\
  map user_password_hash d' = map user_password_hash (db w) /\
  map user_id d' = map user_id (db w) /\
  map user_email d' = map user_email (db w) /\
  map user_name d' = map user_name (db w) /\
  map user_profile_image_url d' = map user_profile_image_url (db w) /\
  map user_api_key d' = map user_api_key (db w) /\
  state (set_db w d') = state w /\ outbox (set_db w d') = outbox w.
Proof.
  intros Hemail Hfound json d'.
  assert (Hd' : d' = Users.update_rows (db w) (user_id u)
                       (refresh_extra_sso json)) by reflexivity.
  split; [| split; [| split]].
  - apply get_user_by_email_some in Hfound as Hin. destruct Hin as [Hin _].
    destruct (get_user_by_id_of_member _ _ Hin) as (u0 & Hu0 & Hid0).
    exists (session_payload
              (create_token (user_id u0)
                 (parse_duration (JWT_EXPIRES_IN (state w))))
              (refresh_extra_sso json u0) (Some json)).
    split; [| split; [exact Hid0 | reflexivity]].
    unfold signin_callback. run. rewrite Hemail. simpl.
    rewrite Hfound. unfold Users.update_user_by_id. simpl.
    change (fun u1 : User => set_field u1 F_extra_sso
              (json_dumps (with_access_token verified access_token)))
      with (refresh_extra_sso json).
    rewrite get_user_by_id_update_rows by reflexivity.
    rewrite Hu0. reflexivity.
  - intros x Hin Hne. unfold d', db_with_extra_sso.
    apply in_map_iff. exists x. split; [| assumption].
    apply String.eqb_neq in Hne. now rewrite Hne.
  - intros x Hin Heq. unfold d', db_with_extra_sso.
    apply in_map_iff. exists x. split; [| assumption].
    apply String.eqb_eq in Heq. now rewrite Heq.
  - rewrite Hd'.
    repeat split; try (apply update_rows_map; reflexivity).
Qed.

Lemma signin_callback_existing_user_frame_witness :
  (exists p,
     @signin_callback password_mode "id-8" "random" no_headers
       (Some carol_identity) (Some "at-1") carol_world =
     (Return p,
      set_db carol_world
        [refresh_extra_sso "{email: Carol@Example.com}" carol]) /\
     id p = "id-7" /\ extra_sso p = Some "{email: Carol@Example.com}") /\
  map user_role
    (db_with_extra_sso (db carol_world) "id-7" "{email: Carol@Example.com}") =
  ["user"] /\
  map user_password_hash
    (db_with_extra_sso (db carol_world) "id-7" "{email: Carol@Example.com}") =
  ["hash:secret"].
Proof.
  pose proof (@signin_callback_existing_user_frame password_mode
                "id-8" "random" no_headers carol_identity (Some "at-1")
                "Carol@Example.com" carol carol_world eq_refl eq_refl)
    as H.
  simpl in H.
  destruct H as (Hrun & _ & _ & Hrole & Hhash & _).
  split; [exact Hrun | split; [exact Hrole | exact Hhash]].
Defined.

(** With ids apart, the payload is that of the user found, role
    included, with the fresh identity payload under [extra_sso]. *)
Lemma signin_callback_existing_user_payload
  `{Ext : Externals} (new_id new_password : string) (request : Request)
  (verified : OpenID) (access_token : option string) (e : string)
  (u : User) (w : World) :
  unique_ids (db w) ->
  sso_email verified = Some e ->
  Users.get_user_by_email (db w) (lower e) = Some u ->
  fst (signin_callback new_id new_password request (Some verified)
         access_token w) =
  Return (session_payload
            (create_token (user_id u)
               (parse_duration (JWT_EXPIRES_IN (state w))))
            (refresh_extra_sso
               (json_dumps (with_access_token verified access_token)) u)
            (Some (json_dumps (with_access_token verified access_token)))).
Proof.
  intros Huniq Hemail Hfound.
  apply get_user_by_email_some in Hfound as Hin. destruct Hin as [Hin _].
  pose proof (get_user_by_id_unique _ _ Huniq Hin) as Hu.
  unfold signin_callback. run. rewrite Hemail. simpl.
  rewrite Hfound. unfold Users.update_user_by_id. simpl.
  change (fun u1 : User => set_field u1 F_extra_sso
            (json_dumps (with_access_token verified access_token)))
    with (refresh_extra_sso
            (json_dumps (with_access_token verified access_token))).
  rewrite get_user_by_id_update_rows by reflexivity.
  rewrite Hu. reflexivity.
Qed.

(** ** Sign-up *)

Section Signup.

Context `{Ext : Externals}.

Lemma signup_creates (new_id : string) (request : Request)
  (form_data : SignupForm) (w : World) :
  signup_admissible new_id form_data w ->
  signup new_id request form_data w =
  (Return (signup_payload new_id form_data w),
   signup_world new_id form_data w).
Proof.
  intros (Hen & Hvalid & Hemail & Hid).
  unfold signup, signup_payload, signup_world. run.
  rewrite Hen. simpl. rewrite Hvalid. simpl. rewrite Hemail. simpl.
  unfold Auths.insert_new_auth. rewrite Hid, Hemail. simpl.
  destruct (truthy (WEBHOOK_URL (state w))); reflexivity.
Qed.

(** Conversely a [signup] that returns was admissible. *)
Lemma signup_returns (new_id : string) (request : Request)
  (form_data : SignupForm) (w w' : World) (p : SigninResponse) :
  signup new_id request form_data w = (Return p, w') ->
  signup_admissible new_id form_data w.
Proof.
  unfold signup, signup_admissible. run.
  destruct (ENABLE_SIGNUP (state w)); simpl; [| discriminate].
  destruct (validate_email_format (lower (signup_email form_data)));
    simpl; [| discriminate].
  destruct (Users.get_user_by_email (db w)
              (lower (signup_email form_data))) eqn:Hemail;
    simpl; [discriminate |].
  unfold Auths.insert_new_auth. rewrite Hemail.
  destruct (Users.get_user_by_id (db w) new_id) eqn:Hid;
    simpl; [discriminate |].
  auto.
Qed.

(** Whatever happens, [signup] leaves the rows that were there in place,
    and the configuration as it was. *)
Lemma signup_outcomes (new_id : string) (request : Request)
  (form_data : SignupForm) (w : World) :
  (signup_admissible new_id form_data w /\
   signup new_id request form_data w =
   (Return (signup_payload new_id form_data w),
    signup_world new_id form_data w)) \/
  (exists e, signup new_id request form_data w = (Raise e, w)).
Proof.
  destruct (signup new_id request form_data w) as [[p | e] w'] eqn:Hrun.
  - left. apply signup_returns in Hrun as Hadm.
    split; [assumption |].
    rewrite <- Hrun. now apply signup_creates.
  - right. exists e. revert Hrun.
    unfold signup. run.
    destruct (ENABLE_SIGNUP (state w)); simpl;
      [| intros H; now inversion H].
    destruct (validate_email_format (lower (signup_email form_data)));
      simpl; [| intros H; now inversion H].
    destruct (Users.get_user_by_email (db w)
                (lower (signup_email form_data))) eqn:Hemail;
      simpl; [intros H; now inversion H |].
    unfold Auths.insert_new_auth. rewrite Hemail.
    destruct (Users.get_user_by_id (db w) new_id) eqn:Hid; simpl.
    + intros H. inversion H. f_equal. destruct w; reflexivity.
    + destruct (truthy (WEBHOOK_URL (state w))); discriminate.
Qed.

End Signup.

(** ** The role given at sign-up *)

Example alice_world_reached :
  @signup password_mode "id-1" no_headers alice_form empty_world =
  (Return (session_payload "token:id-1" alice (Some "")), alice_world).
Proof. reflexivity. Qed.

Example default_admin_world_reached :
  update_default_user_role "admin" alice alice_world =
  (Return "admin", default_admin_world).
Proof. reflexivity. Qed.

(** C2, as stated, fails: with [admin] as the configured default role, Bob
    signs up into a table that already holds Alice and is made [admin]. *)
Lemma signup_admin_iff_first_fails :
  ~ @signup_admin_iff_first password_mode "id-2" no_headers bob_form
      default_admin_world.
Proof.
  intros H.
  destruct (H eq_refl eq_refl eq_refl _ _ eq_refl) as [[Hempty _] _].
  specialize (Hempty eq_refl). discriminate Hempty.
Qed.

(** C2, amended: a sign-up that is enabled, well-formed, and for an e-mail
    (and row id) not yet in the table creates exactly one row, whose role is
    [admin] when the table was empty and the configured default role
    otherwise; so the role is [admin] if and only if the table was empty or
    the default role is itself [admin].  The returned payload carries the
    same role. *)
Theorem signup_role_of_created_user
  `{Ext : Externals} (new_id : string) (request : Request)
  (form_data : SignupForm) (w : World) :
  ENABLE_SIGNUP (state w) = true ->
  validate_email_format (lower (signup_email form_data)) = true ->
  Users.get_user_by_email (db w) (lower (signup_email form_data)) = None ->
  Users.get_user_by_id (db w) new_id = None ->
  exists p w' u,
    signup new_id request form_data w = (Return p, w') /\
    db w' = (db w ++ [u])%list /\
    user_id u = id p /\
    user_email u = lower (signup_email form_data) /\
    user_role u = role p /\
    role p = (if Users.get_num_users (db w) =? 0
              then "admin" else DEFAULT_USER_ROLE (state w)) /\
    (role p = "admin" <->
     Users.get_num_users (db w) = 0 \/
     DEFAULT_USER_ROLE (state w) = "admin").
Proof.
  intros Hen Hvalid Hemail Hid.
  exists (signup_payload new_id form_data w),
         (signup_world new_id form_data w),
         (signup_row new_id form_data w).
  split.
  - apply signup_creates. repeat split; assumption.
  - split.
    + unfold signup_world. simpl.
      destruct (truthy (WEBHOOK_URL (state w))); reflexivity.
    + repeat split; simpl; unfold signup_role;
        destruct (Users.get_num_users (db w)) as [| n]; simpl; auto.
      * intros [H | H]; [discriminate | assumption].
Qed.

Lemma signup_role_of_created_user_witness :
  exists p w' u,
    @signup password_mode "id-2" no_headers bob_form alice_world =
      (Return p, w') /\
    db w' = (db alice_world ++ [u])%list /\
    user_id u = id p /\
    user_email u = "bob@example.com" /\
    user_role u = role p /\
    role p = "pending" /\
    (role p = "admin" <->
     Users.get_num_users (db alice_world) = 0 \/
     DEFAULT_USER_ROLE (state alice_world) = "admin").
Proof.
  exact (@signup_role_of_created_user password_mode "id-2" no_headers
           bob_form alice_world eq_refl eq_refl eq_refl eq_refl).
Defined.

(** ** Sign-up with a registered e-mail *)

Example closed_world_reached :
  toggle_sign_up alice alice_world = (Return false, closed_world).
Proof. reflexivity. Qed.

(** C3, as stated, fails: once sign-up is closed, a sign-up with Alice's
    e-mail is turned away with the 403 [ACCESS_PROHIBITED] error, not with
    [EMAIL_TAKEN]. *)
Lemma signup_registered_is_taken_fails :
  ~ @signup_registered_is_taken password_mode "id-2" no_headers alice_form
      closed_world.
Proof.
  intros H.
  specialize (H alice (or_introl eq_refl) eq_refl).
  discriminate H.
Qed.

(** C3, amended: while sign-up is enabled, a sign-up whose e-mail is, up to
    case, that of a row of a normalized table raises the 400 [EMAIL_TAKEN]
    error; with sign-up disabled it raises the 403 [ACCESS_PROHIBITED]
    error instead; in both cases the world is unchanged, so no second row is
    created. *)
Theorem signup_registered_email_rejected
  `{Ext : Externals} (new_id : string) (request : Request)
  (form_data : SignupForm) (w : World) (u : User) :
  normalized (db w) ->
  In u (db w) ->
  lower (user_email u) = lower (signup_email form_data) ->
  signup new_id request form_data w =
  (Raise (if ENABLE_SIGNUP (state w)
          then HTTPException 400 EMAIL_TAKEN
          else HTTPException 403 ACCESS_PROHIBITED), w).
Proof.
  intros Hnorm Hin Hcase.
  unfold normalized in Hnorm. rewrite Forall_forall in Hnorm.
  destruct (Hnorm u Hin) as [Hlow Hvalid].
  assert (Hstored : user_email u = lower (signup_email form_data))
    by congruence.
  unfold signup. run.
  destruct (ENABLE_SIGNUP (state w)); simpl; [| reflexivity].
  rewrite <- Hstored, Hvalid. simpl.
  destruct (Users.get_user_by_email (db w) (user_email u)) eqn:Hfind;
    simpl; [reflexivity |].
  exfalso. revert Hfind. unfold Users.get_user_by_email.
  apply find_In_not_none with (x := u); [assumption |].
  apply String.eqb_refl.
Qed.

Lemma signup_registered_email_rejected_witness :
  @signup password_mode "id-2" no_headers alice_form alice_world =
  (Raise (HTTPException 400 EMAIL_TAKEN), alice_world).
Proof.
  apply (@signup_registered_email_rejected password_mode "id-2" no_headers
           alice_form alice_world alice).
  - repeat constructor.
  - left. reflexivity.
  - reflexivity.
Defined.

Section Normalized.

Context `{Ext : Externals}.

Lemma normalized_nil : normalized [].
Proof. constructor. Qed.

Lemma normalized_snoc (d : list User) (u : User) :
  normalized d ->
  lower (user_email u) = user_email u ->
  validate_email_format (user_email u) = true ->
  normalized (d ++ [u])%list.
Proof.
  intros Hd Hl Hv. unfold normalized. apply Forall_app. split.
  - exact Hd.
  - constructor; [split; assumption | constructor].
Qed.

Lemma normalized_update_rows (d : list User) (id : string)
  (f : User -> User) :
  (forall u, user_email (f u) = user_email u) ->
  normalized d -> normalized (Users.update_rows d id f).
Proof.
  intros Hf Hd. unfold normalized, Users.update_rows in *.
  rewrite Forall_forall in *. intros x Hx.
  apply in_map_iff in Hx. destruct Hx as (u & <- & Hu).
  destruct (user_id u =? id)%string; [rewrite Hf |]; now apply Hd.
Qed.

(** [signup] keeps the table normalized, whatever its outcome. *)
Lemma signup_keeps_normalized (new_id : string) (request : Request)
  (form_data : SignupForm) (w : World) :
  normalized (db w) ->
  normalized (db (snd (signup new_id request form_data w))).
Proof.
  intros Hd.
  destruct (signup_outcomes new_id request form_data w)
    as [[Hadm ->] | [e ->]]; simpl; [| assumption].
  destruct Hadm as (_ & Hvalid & _ & _).
  unfold signup_world.
  assert (Hsnoc : normalized
                    (db w ++ [signup_row new_id form_data w])%list).
  { apply normalized_snoc; simpl; auto using lower_idempotent. }
  destruct (truthy (WEBHOOK_URL (state w))); exact Hsnoc.
Qed.

(** So does [add_user]. *)
Lemma add_user_keeps_normalized (new_id : string) (form_data : AddUserForm)
  (admin : User) (w : World) :
  normalized (db w) ->
  normalized (db (snd (add_user new_id form_data admin w))).
Proof.
  intros Hd. unfold add_user. run.
  destruct (validate_email_format (lower (add_email form_data))) eqn:Hv;
    simpl; [| assumption].
  destruct (Users.get_user_by_email (db w) (lower (add_email form_data)))
    eqn:Hemail; simpl; [assumption |].
  unfold Auths.insert_new_auth. rewrite Hemail.
  destruct (Users.get_user_by_id (db w) new_id); simpl; [assumption |].
  apply normalized_snoc; simpl; auto using lower_idempotent.
Qed.

End Normalized.

(** ** Sign-up, then sign-in under another casing *)

Section SignupSignin.

Context `{Ext : Externals}.

Lemma db_signup_world (new_id : string) (form_data : SignupForm)
  (w : World) :
  db (signup_world new_id form_data w) =
  (db w ++ [signup_row new_id form_data w])%list.
Proof.
  unfold signup_world. simpl.
  destruct (truthy (WEBHOOK_URL (state w))); reflexivity.
Qed.

Lemma state_signup_world (new_id : string) (form_data : SignupForm)
  (w : World) :
  state (signup_world new_id form_data w) = state w.
Proof.
  unfold signup_world. simpl.
  destruct (truthy (WEBHOOK_URL (state w))); reflexivity.
Qed.

(** The new row is the one its e-mail leads to. *)
Lemma get_user_by_email_signup_world (new_id : string)
  (form_data : SignupForm) (w : World) :
  Users.get_user_by_email (db w) (lower (signup_email form_data)) = None ->
  Users.get_user_by_email (db (signup_world new_id form_data w))
    (lower (signup_email form_data)) =
  Some (signup_row new_id form_data w).
Proof.
  intros Hnone. rewrite db_signup_world.
  unfold Users.get_user_by_email in *.
  rewrite find_app_split, Hnone. simpl.
  now rewrite String.eqb_refl.
Qed.

End SignupSignin.

(** C4: in password mode, after a sign-up that succeeded under one casing of
    an e-mail, a sign-in with any casing of the same e-mail and the same
    password succeeds, for the user just created, and changes nothing; the
    hasher is asked to accept the password it hashed. *)
Theorem signup_then_signin_ignores_case
  `{Ext : Externals} (new_id : string) (request : Request)
  (form_data : SignupForm) (w w' : World) (p : SigninResponse)
  (id2 password2 : string) (request2 : Request) (email2 : string) :
  truthy_opt WEBUI_AUTH_TRUSTED_EMAIL_HEADER = false ->
  verify_password (signup_password form_data)
    (get_password_hash (signup_password form_data)) = true ->
  signup new_id request form_data w = (Return p, w') ->
  lower email2 = lower (signup_email form_data) ->
  exists p',
    signin id2 password2 request2
      {| signin_email := email2;
         signin_password := signup_password form_data |} w' =
    (Return p', w') /\
    id p' = id p /\
    email p' = lower (signup_email form_data) /\
    email p' = email p /\ name p' = name p /\ role p' = role p.
Proof.
  intros Hmode Hhash Hsignup Hcase.
  apply signup_returns in Hsignup as Hadm.
  rewrite (signup_creates _ request _ _ Hadm) in Hsignup.
  injection Hsignup as <- <-.
  destruct Hadm as (_ & _ & Hemail & _).
  exists (signup_payload new_id form_data w).
  split; [| repeat split].
  unfold signin, trusted_header. rewrite Hmode. run.
  unfold Auths.authenticate_user.
  rewrite Hcase, (get_user_by_email_signup_world _ _ _ Hemail).
  simpl. rewrite Hhash. simpl.
  now rewrite state_signup_world.
Qed.

Lemma signup_then_signin_ignores_case_witness :
  @signup password_mode "id-1" no_headers foo_form empty_world =
    (Return (@signup_payload password_mode "id-1" foo_form empty_world),
     foo_world) /\
  exists p',
    @signin password_mode "id-9" "unused" no_headers
      {| signin_email := "foo@bar.com"; signin_password := "s3cret" |}
      foo_world = (Return p', foo_world) /\
    id p' = "id-1" /\
    email p' = "foo@bar.com" /\
    email p' = "foo@bar.com" /\ name p' = "Foo" /\ role p' = "admin".
Proof.
  split; [reflexivity |].
  exact (@signup_then_signin_ignores_case password_mode "id-1" no_headers
           foo_form empty_world foo_world
           (@signup_payload password_mode "id-1" foo_form empty_world)
           "id-9" "unused" no_headers "foo@bar.com"
           eq_refl eq_refl eq_refl eq_refl).
Defined.

(** The other way round, and with the wrong password. *)
Example signin_upper_case_after_lower_case_signup :
  fst (@signin password_mode "id-9" "unused" no_headers
         {| signin_email := "BOB@Example.COM"; signin_password := "builder" |}
         (snd (@signup password_mode "id-2" no_headers bob_form
                 alice_world))) =
  Return (session_payload "token:id-2"
            (@signup_row password_mode "id-2" bob_form alice_world)
            (Some "")).
Proof. reflexivity. Qed.

Example signin_wrong_password :
  fst (@signin password_mode "id-9" "unused" no_headers
         {| signin_email := "alice@example.com"; signin_password := "guess" |}
         alice_world) =
  Raise (HTTPException 400 INVALID_CRED).
Proof. reflexivity. Qed.

(** ** Sign-up and the webhook notifier *)

(** C9: when [signup] creates a user and a webhook is configured, a
    notification whose delivery fails (the notifier answers [false]) does
    not abort the sign-up: the call still returns the session payload of the
    new user, whose row is in the table; the failed delivery only shows in
    the outbox. *)
Theorem signup_survives_webhook_failure
  `{Ext : Externals} (new_id : string) (request : Request)
  (form_data : SignupForm) (w : World) :
  signup_admissible new_id form_data w ->
  truthy (WEBHOOK_URL (state w)) = true ->
  post_webhook (WEBHOOK_URL (state w))
    (USER_SIGNUP (signup_name form_data))
    (signup_event (signup_row new_id form_data w)) = false ->
  exists w',
    signup new_id request form_data w =
      (Return (signup_payload new_id form_data w), w') /\
    db w' = (db w ++ [signup_row new_id form_data w])%list /\
    In (signup_row new_id form_data w) (db w') /\
    outbox w' =
      (outbox w ++
       [mkWebhookCall (WEBHOOK_URL (state w))
          (USER_SIGNUP (signup_name form_data))
          (signup_event (signup_row new_id form_data w)) false])%list.
Proof.
  intros Hadm Hurl Hfail.
  exists (signup_world new_id form_data w).
  split; [now apply signup_creates |].
  split; [apply db_signup_world |].
  split.
  - rewrite db_signup_world. apply in_or_app. right. now left.
  - unfold signup_world. rewrite Hurl. simpl in *. now rewrite Hfail.
Qed.

Lemma signup_survives_webhook_failure_witness :
  exists w',
    @signup password_mode "id-2" no_headers bob_form hooked_world =
      (Return (@signup_payload password_mode "id-2" bob_form hooked_world),
       w') /\
    db w' = [alice; @signup_row password_mode "id-2" bob_form hooked_world] /\
    In (@signup_row password_mode "id-2" bob_form hooked_world) (db w') /\
    outbox w' =
      [mkWebhookCall "https://hooks.example.com/signup"
         "New user signed up: Bob"
         (@signup_event password_mode
            (@signup_row password_mode "id-2" bob_form hooked_world))
         false].
Proof.
  apply (@signup_survives_webhook_failure password_mode "id-2" no_headers
           bob_form hooked_world).
  - repeat split; reflexivity.
  - reflexivity.
  - reflexivity.
Defined.

(** ** The [extra_sso] entry of the session payload *)

Lemma bind_return_inv {A B} (m : M A) (k : A -> M B) (w w' : World) (b : B) :
  bind m k w = (Return b, w') ->
  exists a w1, m w = (Return a, w1) /\ k a w1 = (Return b, w').
Proof.
  unfold bind. destruct (m w) as [[a | e] w1]; intros H.
  - exists a, w1. auto.
  - discriminate.
Qed.

Lemma try_except_return_inv {A} (body : M A) (e' : Exception)
  (w w' : World) (a : A) :
  try_except body (fun _ => raise e') w = (Return a, w') ->
  body w = (Return a, w').
Proof.
  unfold try_except, raise. destruct (body w) as [[a0 | e] w1]; intros H.
  - assumption.
  - discriminate.
Qed.

Section ExtraSso.

Context `{Ext : Externals}.

Lemma signin_returns_blank (new_id new_password : string)
  (request : Request) (form_data : SigninForm) (w w' : World)
  (p : SigninResponse) :
  signin new_id new_password request form_data w = (Return p, w') ->
  extra_sso p = Some "".
Proof.
  unfold signin. intros H.
  apply bind_return_inv in H. destruct H as (user & w1 & _ & H).
  destruct user as [user |]; [| discriminate].
  run. now inversion H.
Qed.

Lemma signup_returns_blank (new_id : string) (request : Request)
  (form_data : SignupForm) (w w' : World) (p : SigninResponse) :
  signup new_id request form_data w = (Return p, w') ->
  extra_sso p = Some "".
Proof.
  intros H. apply signup_returns in H as Hadm.
  rewrite (signup_creates _ request _ _ Hadm) in H.
  now inversion H.
Qed.

Lemma add_user_returns_blank (new_id : string) (form_data : AddUserForm)
  (admin : User) (w w' : World) (p : SigninResponse) :
  add_user new_id form_data admin w = (Return p, w') ->
  extra_sso p = Some "".
Proof.
  unfold add_user. run.
  destruct (validate_email_format (lower (add_email form_data)));
    simpl; [| discriminate].
  destruct (Users.get_user_by_email (db w) (lower (add_email form_data)))
    eqn:Hemail; simpl; [discriminate |].
  unfold Auths.insert_new_auth. rewrite Hemail.
  destruct (Users.get_user_by_id (db w) new_id); simpl; [discriminate |].
  intros H. now inversion H.
Qed.

Lemma update_user_by_id_member (uid : string)
  (updated : list (UserField * string)) (w w1 : World) (user : User) :
  execute (Users.update_user_by_id uid updated) w =
    (Return (Some user), w1) ->
  In user (db w1) /\ user_id user = uid.
Proof.
  unfold execute, Users.update_user_by_id. simpl.
  intros H. inversion H as [[Hfind Hw]]. simpl.
  unfold Users.get_user_by_id in Hfind. apply find_some in Hfind.
  destruct Hfind as [Hin Heq]. split; [assumption |].
  now apply String.eqb_eq.
Qed.

Lemma update_user_role_by_id_member (uid role : string) (w w1 : World)
  (user : User) :
  execute (Users.update_user_role_by_id uid role) w =
    (Return (Some user), w1) ->
  In user (db w1) /\ user_id user = uid /\
  exists u0, Users.get_user_by_id (db w) uid = Some u0 /\
             user = set_role role u0.
Proof.
  unfold execute, Users.update_user_role_by_id. simpl.
  intros H. inversion H as [[Hfind Hw]]. simpl.
  pose proof Hfind as Hread.
  rewrite get_user_by_id_update_rows in Hread by reflexivity.
  unfold Users.get_user_by_id in Hfind. apply find_some in Hfind.
  destruct Hfind as [Hin Heq]. split; [assumption |].
  split; [now apply String.eqb_eq |].
  destruct (Users.get_user_by_id (db w) uid) as [u0 |];
    [| discriminate].
  exists u0. split; [reflexivity |]. simpl in Hread. congruence.
Qed.

End ExtraSso.

(** ** The SSO callback *)

Section Callback.

Context `{Ext : Externals}.

(** A callback that returns hands back a row of the table it leaves,
    with that row's stored [extra_sso]. *)
Lemma signin_callback_returns (new_id new_password : string)
  (request : Request) (verified : option OpenID)
  (access_token : option string) (w w' : World) (p : SigninResponse) :
  signin_callback new_id new_password request verified access_token w =
    (Return p, w') ->
  exists user,
    Users.get_user_by_id (db w') (id p) = Some user /\
    In user (db w') /\
    role p = user_role user /\
    extra_sso p = user_extra_sso user.
Proof.
  unfold signin_callback. intros H.
  apply try_except_return_inv in H.
  destruct verified as [o |]; [| discriminate].
  simpl in H. destruct (sso_email o) as [e |]; [| discriminate].
  apply bind_return_inv in H. destruct H as (found & w0 & Hq & H).
  apply bind_return_inv in H. destruct H as (user & w1 & Hbranch & H).
  destruct user as [user |]; [| discriminate].
  run. inversion H; subst; clear H. exists user. simpl.
  enough (Users.get_user_by_id (db w') (user_id user) = Some user) as Hg.
  { split; [exact Hg |]. split; [| auto].
    unfold Users.get_user_by_id in Hg. now apply find_some in Hg. }
  destruct found as [u1 |].
  - unfold Users.update_user_by_id in Hbranch. simpl in Hbranch.
    injection Hbranch as Hfind Hw. subst w'. simpl.
    pose proof Hfind as Hf. unfold Users.get_user_by_id in Hf.
    apply find_some in Hf. destruct Hf as [_ Heq].
    apply String.eqb_eq in Heq. rewrite Heq. exact Hfind.
  - destruct (sso_display_name o) as [display_name |]; [| discriminate].
    destruct (signup new_id request _ w0) as [[p0 | e0] w2];
      [| discriminate].
    simpl in Hbranch.
    destruct (Auths.authenticate_user_by_trusted_header (db w2) (lower e))
      as [u2 |]; [| discriminate].
    unfold Users.update_user_role_by_id in Hbranch. simpl in Hbranch.
    injection Hbranch as Hfind Hw. subst w'. simpl.
    pose proof Hfind as Hf. unfold Users.get_user_by_id in Hf.
    apply find_some in Hf. destruct Hf as [_ Heq].
    apply String.eqb_eq in Heq. rewrite Heq. exact Hfind.
Qed.

(** A callback that provisions an account leaves it with the role
    [user]: the count it consults is taken after the insert. *)
Lemma signin_callback_new_user_role (new_id new_password : string)
  (request : Request) (verified : OpenID) (access_token : option string)
  (e : string) (w w' : World) (p : SigninResponse) :
  sso_email verified = Some e ->
  Users.get_user_by_email (db w) (lower e) = None ->
  signin_callback new_id new_password request (Some verified)
    access_token w = (Return p, w') ->
  role p = "user" /\
  exists user,
    Users.get_user_by_id (db w') (id p) = Some user /\
    user_role user = "user".
Proof.
  intros Hemail Hnone H.
  destruct (signin_callback_returns _ _ _ _ _ _ _ _ H)
    as (user & Hget & _ & Hrole & _).
  enough (role p = "user") as Hp.
  { split; [exact Hp |]. exists user. split; [exact Hget | congruence]. }
  clear Hget Hrole user.
  unfold signin_callback in H.
  apply try_except_return_inv in H.
  simpl in H. rewrite Hemail in H.
  apply bind_return_inv in H. destruct H as (found & w0 & Hq & H).
  unfold query in Hq. inversion Hq; subst; clear Hq.
  rewrite Hnone in H.
  apply bind_return_inv in H. destruct H as (user & w1 & Hbranch & H).
  destruct user as [user |]; [| discriminate].
  run. inversion H; subst; clear H. simpl.
  destruct (sso_display_name verified) as [display_name |];
    [| discriminate].
  match type of Hbranch with
  | context [signup ?i ?r ?f ?w0] =>
      destruct (signup_outcomes i r f w0) as [[_ Hs] | [e0 Hs]];
      rewrite Hs in Hbranch; [| discriminate];
      pose proof (db_signup_world i f w0) as Hdb;
      set (w2 := signup_world i f w0) in *
  end.
  simpl in Hbranch.
  destruct (Auths.authenticate_user_by_trusted_header (db w2) (lower e))
    as [u2 |]; [| discriminate].
  assert (Hcount : (Users.get_num_users (db w2) =? 0) = false).
  { rewrite Hdb. unfold Users.get_num_users. rewrite length_app. simpl.
    apply Nat.eqb_neq. lia. }
  rewrite Hcount in Hbranch.
  unfold Users.update_user_role_by_id in Hbranch. simpl in Hbranch.
  injection Hbranch as Hfind Hw.
  rewrite get_user_by_id_update_rows in Hfind by reflexivity.
  destruct (Users.get_user_by_id (db w2) (user_id u2)) as [u3 |];
    [| discriminate].
  simpl in Hfind. inversion Hfind. reflexivity.
Qed.

End Callback.

(** C1: the first user ever, provisioned by the SSO callback into an empty
    table, should end with the role [admin].  The handler does not achieve
    this: run on the empty table, [signup] inserts the row as [admin], and the
    callback then rewrites it to [user], since it counts the rows after the
    insert; the payload and the stored row both say [user]. *)
Theorem signin_callback_first_user_role :
  Users.get_num_users (db empty_world) = 0 /\
  Users.get_user_by_email (db empty_world) (lower "Alice@Example.com") =
    None /\
  role (@signup_payload password_mode "id-1"
          {| signup_name := "Alice";
             signup_email := "Alice@Example.com";
             signup_password := "random";
             signup_profile_image_url := "/user.png";
             signup_extra_sso := Some "{email: Alice@Example.com}" |}
          empty_world) = "admin" /\
  @signin_callback password_mode "id-1" "random" no_headers
    (Some alice_identity) (Some "at-1") empty_world =
  (Return {| token := "token:id-1";
             token_type := "Bearer";
             id := "id-1";
             email := "alice@example.com";
             name := "Alice";
             role := "user";
             profile_image_url := "/user.png";
             extra_sso := Some "{email: Alice@Example.com}" |},
   {| db := [ {| user_id := "id-1";
                 user_email := "alice@example.com";
                 user_password_hash := "hash:random";
                 user_name := "Alice";
                 user_role := "user";
                 user_profile_image_url := "/user.png";
                 user_extra_sso := Some "{email: Alice@Example.com}";
                 user_api_key := None |} ];
      state := initial_state;
      outbox := [] |}).
Proof. repeat split. Qed.

(** ** The [extra_sso] entry, all token-issuing endpoints *)

(** C10: a session payload returned by [signin], [signup] or [add_user]
    always has the empty string under [extra_sso], whatever the row holds;
    the payload of the SSO callback carries the [extra_sso] stored on the
    row it resolved. *)
Theorem token_endpoints_extra_sso `{Ext : Externals} :
  (forall new_id new_password request form_data w w' p,
     signin new_id new_password request form_data w = (Return p, w') ->
     extra_sso p = Some "") /\
  (forall new_id request form_data w w' p,
     signup new_id request form_data w = (Return p, w') ->
     extra_sso p = Some "") /\
  (forall new_id form_data admin w w' p,
     add_user new_id form_data admin w = (Return p, w') ->
     extra_sso p = Some "") /\
  (forall new_id new_password request verified access_token w w' p,
     signin_callback new_id new_password request verified access_token w =
       (Return p, w') ->
     exists user,
       Users.get_user_by_id (db w') (id p) = Some user /\
       extra_sso p = user_extra_sso user).
Proof.
  split; [| split; [| split]].
  - intros. eapply signin_returns_blank; eauto.
  - intros. eapply signup_returns_blank; eauto.
  - intros. eapply add_user_returns_blank; eauto.
  - intros * H. apply signin_callback_returns in H.
    destruct H as (user & Hget & _ & _ & Hsso). eauto.
Qed.

Lemma token_endpoints_extra_sso_witness :
  map user_extra_sso (db carol_sso_world) =
    [Some "{email: Carol@Example.com}"] /\
  extra_sso (session_payload "token:id-7"
               (refresh_extra_sso "{email: Carol@Example.com}" carol)
               (Some "")) = Some "" /\
  map user_extra_sso
    (db (@signup_world password_mode "id-3" dave_sso_form alice_world)) =
    [None; Some "{email: dave@example.com}"] /\
  extra_sso (@signup_payload password_mode "id-3" dave_sso_form alice_world) =
    Some "" /\
  exists p w',
    @add_user password_mode "id-4" erin_form alice alice_world =
      (Return p, w') /\
    email p = "erin@example.com" /\
    extra_sso p = Some "".
Proof.
  destruct (@token_endpoints_extra_sso password_mode)
    as (Hsignin & Hsignup & Hadd & _).
  split; [reflexivity |].
  split.
  - apply (Hsignin "id-9" "unused" no_headers
             {| signin_email := "CAROL@example.com";
                signin_password := "secret" |}
             carol_sso_world carol_sso_world).
    reflexivity.
  - split; [reflexivity |].
    split.
    + apply (Hsignup "id-3" no_headers dave_sso_form alice_world
               (@signup_world password_mode "id-3" dave_sso_form
                  alice_world)).
      reflexivity.
    + eexists. eexists.
      split; [reflexivity |].
      split; [reflexivity |].
      eapply (Hadd "id-4" erin_form alice alice_world). reflexivity.
Defined.

(** * Further properties of the handlers *)

(** ** Configuration *)

(** Toggling sign-up answers with the new flag, touches nothing else, and
    a second toggle restores the world. *)
Theorem toggle_sign_up_twice (user1 user2 : User) (w : World) :
  exists w1,
    toggle_sign_up user1 w = (Return (negb (ENABLE_SIGNUP (state w))), w1) /\
    db w1 = db w /\ outbox w1 = outbox w /\
    DEFAULT_USER_ROLE (state w1) = DEFAULT_USER_ROLE (state w) /\
    JWT_EXPIRES_IN (state w1) = JWT_EXPIRES_IN (state w) /\
    WEBHOOK_URL (state w1) = WEBHOOK_URL (state w) /\
    toggle_sign_up user2 w1 = (Return (ENABLE_SIGNUP (state w)), w).
Proof.
  eexists. split; [reflexivity |].
  repeat (split; [reflexivity |]).
  destruct w as [d [en dr jw wh] o]. unfold toggle_sign_up. run.
  now rewrite negb_involutive.
Qed.

Lemma valid_role_decide (r : string) :
  existsb (String.eqb r) ["pending"; "user"; "admin"] = true <-> valid_role r.
Proof.
  unfold valid_role. simpl. rewrite !orb_true_iff, !String.eqb_eq.
  intuition discriminate.
Qed.

(** The default role stays one of pending, user, admin whatever is
    submitted: a listed role is stored, anything else leaves the world as
    it was; the answer is the default role in effect after the call. *)
Theorem update_default_user_role_keeps_valid
  (form_role : string) (user : User) (w : World) :
  valid_role (DEFAULT_USER_ROLE (state w)) ->
  exists w',
    update_default_user_role form_role user w =
      (Return (DEFAULT_USER_ROLE (state w')), w') /\
    valid_role (DEFAULT_USER_ROLE (state w')) /\
    (valid_role form_role /\ DEFAULT_USER_ROLE (state w') = form_role \/
     ~ valid_role form_role /\ w' = w) /\
    db w' = db w /\ outbox w' = outbox w /\
    ENABLE_SIGNUP (state w') = ENABLE_SIGNUP (state w) /\
    JWT_EXPIRES_IN (state w') = JWT_EXPIRES_IN (state w).
Proof.
  intros Hvalid. unfold update_default_user_role.
  destruct (existsb (String.eqb form_role) ["pending"; "user"; "admin"])
    eqn:Hin.
  - apply valid_role_decide in Hin.
    eexists. split; [reflexivity |]. simpl. intuition.
  - exists w. split; [reflexivity |].
    split; [assumption |]. split; [right | intuition].
    split; [| reflexivity].
    intros Hr. apply valid_role_decide in Hr. congruence.
Qed.

Lemma update_default_user_role_keeps_valid_witness :
  exists w',
    update_default_user_role "root" alice alice_world =
      (Return (DEFAULT_USER_ROLE (state w')), w') /\
    valid_role (DEFAULT_USER_ROLE (state w')) /\
    (valid_role "root" /\ DEFAULT_USER_ROLE (state w') = "root" \/
     ~ valid_role "root" /\ w' = alice_world) /\
    db w' = db alice_world /\ outbox w' = outbox alice_world /\
    ENABLE_SIGNUP (state w') = ENABLE_SIGNUP (state alice_world) /\
    JWT_EXPIRES_IN (state w') = JWT_EXPIRES_IN (state alice_world).
Proof.
  apply (update_default_user_role_keeps_valid "root" alice alice_world).
  left. reflexivity.
Defined.

(** ** Durations the token-expiry update takes *)

Lemma lang_Lit (t s : string) : Re.lang (Re.Lit t) s -> s = t.
Proof.
  revert s. induction t as [| c t IH]; intros s H; simpl in H.
  - now inversion H.
  - apply ReFacts.lang_seq_inv in H. destruct H as (s1 & s2 & -> & H1 & H2).
    inversion H1; subst. simpl. f_equal. now apply IH.
Qed.

Lemma all_digits_app (a b : string) :
  all_digits (a ++ b) = all_digits a && all_digits b.
Proof.
  induction a as [| c a IH]; simpl; [reflexivity |].
  now rewrite IH, andb_assoc.
Qed.

(** A text of the pattern made of digits only is the text 0. *)
Lemma duration_digits_only (s : string) :
  Re.lang duration_pattern s -> all_digits s = true -> s = "0".
Proof.
  intros H Hd. unfold duration_pattern in H.
  apply ReFacts.lang_alt_inv in H. destruct H as [H | H].
  - apply lang_Lit in H. subst. discriminate.
  - apply ReFacts.lang_alt_inv in H. destruct H as [H | H].
    + now apply lang_Lit in H.
    + apply ReFacts.lang_seq_inv in H.
      destruct H as (number & unit & -> & _ & Hunit).
      rewrite all_digits_app in Hd. apply andb_true_iff in Hd.
      destruct Hd as [_ Hd].
      repeat (apply ReFacts.lang_alt_inv in Hunit;
              destruct Hunit as [Hunit | Hunit];
              [apply lang_Lit in Hunit; subst; discriminate |]).
      apply lang_Lit in Hunit; subst; discriminate.
Qed.

(** A number without a unit is not a duration: a submission made of digits
    only, other than 0, is ignored and the prior expiry is answered. *)
Theorem update_token_expires_duration_bare_number
  (duration : string) (user : User) (w : World) :
  all_digits duration = true ->
  duration <> "0" ->
  update_token_expires_duration duration user w =
  (Return (JWT_EXPIRES_IN (state w)), w).
Proof.
  intros Hd Hne. apply update_token_expires_duration_ignores.
  intros [H | (t & -> & _)].
  - apply Hne. now apply duration_digits_only.
  - rewrite all_digits_app in Hd. apply andb_true_iff in Hd.
    destruct Hd as [_ Hd]. discriminate.
Qed.

Lemma update_token_expires_duration_bare_number_witness :
  update_token_expires_duration "3600" alice alice_world =
  (Return "-1", alice_world).
Proof.
  apply (update_token_expires_duration_bare_number "3600" alice alice_world).
  - reflexivity.
  - discriminate.
Defined.

(** The end anchor of the pattern also holds before a final newline: a
    duration followed by one newline is accepted and stored with the
    newline. *)
Theorem update_token_expires_duration_trailing_newline
  (duration : string) (user : User) (w : World) :
  Re.fullmatch duration_pattern duration = true ->
  update_token_expires_duration (duration ++ String "010" "") user w =
  (Return (duration ++ String "010" ""),
   set_state w (mkAppState (ENABLE_SIGNUP (state w))
                  (DEFAULT_USER_ROLE (state w))
                  (duration ++ String "010" "")
                  (WEBHOOK_URL (state w)))).
Proof.
  intros Hm. apply update_token_expires_duration_stores.
  right. exists duration. split; [reflexivity |].
  now apply ReFacts.fullmatch_lang.
Qed.

Lemma update_token_expires_duration_trailing_newline_witness :
  update_token_expires_duration (String "2" (String "w" (String "010" "")))
    alice alice_world =
  (Return (String "2" (String "w" (String "010" ""))),
   set_state alice_world
     (mkAppState true "pending" (String "2" (String "w" (String "010" "")))
        "")).
Proof.
  apply (update_token_expires_duration_trailing_newline "2w" alice
           alice_world); reflexivity.
Defined.

(** ** Failures of sign-up and of the administrator's insert *)




(** The administrator's insert does not look at the sign-up switch and
    sends no webhook: for a well-formed e-mail and an id that are new it
    appends one row, with the e-mail in lower case, the hashed password
    and the name of the form, whatever the configuration; the token it
    returns is issued without an expiry. *)
Theorem add_user_creates `{Ext : Externals} (new_id : string)
  (form_data : AddUserForm) (admin : User) (w : World) :
  validate_email_format (lower (add_email form_data)) = true ->
  Users.get_user_by_email (db w) (lower (add_email form_data)) = None ->
  Users.get_user_by_id (db w) new_id = None ->
  exists p u,
    add_user new_id form_data admin w =
      (Return p, set_db w (db w ++ [u])%list) /\
    user_id u = new_id /\
    user_email u = lower (add_email form_data) /\
    user_password_hash u = get_password_hash (add_password form_data) /\
    user_name u = add_name form_data /\
    user_profile_image_url u = add_profile_image_url form_data /\
    user_api_key u = None /\
    p = session_payload (create_token new_id None) u (Some "").
Proof.
  intros Hvalid Hemail Hid.
  eexists. eexists. split.
  - unfold add_user. run. rewrite Hvalid. simpl. rewrite Hemail. simpl.
    unfold Auths.insert_new_auth. rewrite Hid, Hemail. simpl.
    reflexivity.
  - simpl. repeat split.
Qed.

Lemma add_user_creates_witness :
  exists p u,
    @add_user password_mode "id-4" erin_form alice closed_world =
      (Return p, set_db closed_world (db closed_world ++ [u])%list) /\
    user_id u = "id-4" /\
    user_email u = "erin@example.com" /\
    user_password_hash u = "hash:pw" /\
    user_name u = "Erin" /\
    user_profile_image_url u = "/user.png" /\
    user_api_key u = None /\
    p = session_payload "token:id-4" u (Some "").
Proof.
  exact (@add_user_creates password_mode "id-4" erin_form alice
           closed_world eq_refl eq_refl eq_refl).
Defined.



(** ** Profile and password updates *)

Lemma update_rows_absent (d : list User) (uid : string) (f : User -> User) :
  Users.get_user_by_id d uid = None -> Users.update_rows d uid f = d.
Proof.
  unfold Users.get_user_by_id, Users.update_rows.
  induction d as [| u d IH]; simpl; [reflexivity |].
  destruct (user_id u =? uid)%string; [discriminate |].
  intros H. now rewrite IH.
Qed.

Lemma get_user_by_email_update_rows (d : list User) (uid e : string)
  (f : User -> User) :
  (forall u, user_email (f u) = user_email u) ->
  Users.get_user_by_email (Users.update_rows d uid f) e =
  option_map (fun u => if (user_id u =? uid)%string then f u else u)
    (Users.get_user_by_email d e).
Proof.
  intros Hf. unfold Users.get_user_by_email, Users.update_rows.
  induction d as [| u d IH]; simpl; [reflexivity |].
  destruct (user_id u =? uid)%string eqn:Hid.
  - rewrite Hf. destruct (user_email u =? e)%string; simpl.
    + now rewrite Hid.
    + exact IH.
  - destruct (user_email u =? e)%string; simpl.
    + now rewrite Hid.
    + exact IH.
Qed.

Lemma set_db_same (w : World) : set_db w (db w) = w.
Proof. now destruct w. Qed.

(** A profile update of a user with a row writes the name and the profile
    image of the rows with that id and returns the row read back; ids,
    e-mails, password hashes, roles, SSO metadata and API keys of all rows,
    the configuration and the outbox stay as they were. *)
Theorem update_profile_frame (form_data : UpdateProfileForm)
  (session_user u0 : User) (w : World) :
  Users.get_user_by_id (db w) (user_id session_user) = Some u0 ->
  let d' := Users.update_rows (db w) (user_id session_user)
              (profile_written form_data) in
  update_profile form_data (Some session_user) w =
    (Return (profile_written form_data u0), set_db w d') /\
  user_name (profile_written form_data u0) = profile_form_name form_data /\
  user_profile_image_url (profile_written form_data u0) =
    profile_form_image_url form_data /\
  map user_id d' = map user_id (db w) /\
  map user_email d' = map user_email (db w) /\
  map user_password_hash d' = map user_password_hash (db w) /\
  map user_role d' = map user_role (db w) /\
  map user_extra_sso d' = map user_extra_sso (db w) /\
  map user_api_key d' = map user_api_key (db w).
Proof.
  intros Hrow d'. split.
  - unfold update_profile, Users.update_user_by_id. run.
    change (fun u : User =>
              set_field (set_field u F_profile_image_url
                           (profile_form_image_url form_data))
                F_name (profile_form_name form_data))
      with (profile_written form_data).
    rewrite get_user_by_id_update_rows by reflexivity.
    rewrite Hrow. reflexivity.
  - repeat split; try (apply update_rows_map; reflexivity).
Qed.

Lemma update_profile_frame_witness :
  update_profile (mkUpdateProfileForm "/carol.png" "Carol Danvers")
    (Some carol) carol_world =
  (Return (profile_written
             (mkUpdateProfileForm "/carol.png" "Carol Danvers") carol),
   set_db carol_world
     [profile_written (mkUpdateProfileForm "/carol.png" "Carol Danvers")
        carol]) /\
  map user_role
    [profile_written (mkUpdateProfileForm "/carol.png" "Carol Danvers")
       carol] = ["user"].
Proof.
  destruct (update_profile_frame
              (mkUpdateProfileForm "/carol.png" "Carol Danvers")
              carol carol carol_world eq_refl)
    as (Hrun & _ & _ & _ & _ & _ & Hrole & _).
  split; [exact Hrun | exact Hrole].
Defined.

(** A profile update that raises leaves the world as it was: without a
    session it raises 400 [INVALID_CRED]; with a session user who has no
    row it raises the 400 [DEFAULT] error. *)
Theorem update_profile_raises (form_data : UpdateProfileForm)
  (session_user : option User) (w w' : World) (e : Exception) :
  update_profile form_data session_user w = (Raise e, w') ->
  w' = w /\
  match session_user with
  | None => e = HTTPException 400 INVALID_CRED
  | Some su =>
      e = HTTPException 400 (DEFAULT None) /\
      Users.get_user_by_id (db w) (user_id su) = None
  end.
Proof.
  unfold update_profile. destruct session_user as [su |].
  - unfold Users.update_user_by_id. run.
    rewrite get_user_by_id_update_rows by reflexivity.
    destruct (Users.get_user_by_id (db w) (user_id su)) eqn:Hrow;
      simpl; [discriminate |].
    intros H. inversion H.
    rewrite update_rows_absent by assumption.
    rewrite set_db_same. auto.
  - run. intros H. now inversion H.
Qed.

Lemma update_profile_raises_witness :
  carol_world = carol_world /\
  HTTPException 400 (DEFAULT None) = HTTPException 400 (DEFAULT None) /\
  Users.get_user_by_id (db carol_world) (user_id alice) = None.
Proof.
  apply (update_profile_raises (mkUpdateProfileForm "/a.png" "A")
           (Some alice) carol_world carol_world).
  reflexivity.
Defined.

(** In password mode a password update that raises leaves the world as it
    was: without a session it raises 400 [INVALID_CRED], and when the
    submitted current password does not authenticate the session user's
    e-mail it raises 400 [INVALID_PASSWORD]. *)
Theorem update_password_raises `{Ext : Externals}
  (form_data : UpdatePasswordForm) (session_user : option User)
  (w w' : World) (e : Exception) :
  truthy_opt WEBUI_AUTH_TRUSTED_EMAIL_HEADER = false ->
  update_password form_data session_user w = (Raise e, w') ->
  w' = w /\
  match session_user with
  | None => e = HTTPException 400 INVALID_CRED
  | Some su =>
      e = HTTPException 400 INVALID_PASSWORD /\
      Auths.authenticate_user (db w) (user_email su)
        (form_password form_data) = None
  end.
Proof.
  intros Hmode. unfold update_password. rewrite Hmode.
  destruct session_user as [su |].
  - run.
    destruct (Auths.authenticate_user (db w) (user_email su)
                (form_password form_data)) as [user |] eqn:Hauth; simpl.
    + unfold Auths.update_user_password_by_id.
      destruct (Users.get_user_by_id (db w) (user_id user)); discriminate.
    + intros H. now inversion H.
  - run. intros H. now inversion H.
Qed.

Lemma update_password_raises_witness :
  carol_world = carol_world /\
  HTTPException 400 INVALID_PASSWORD = HTTPException 400 INVALID_PASSWORD /\
  @Auths.authenticate_user password_mode (db carol_world)
    (user_email carol) "guess" = None.
Proof.
  apply (@update_password_raises password_mode
           (mkUpdatePasswordForm "guess" "changed") (Some carol)
           carol_world carol_world).
  - reflexivity.
  - reflexivity.
Defined.

Lemma authenticate_user_some `{Ext : Externals} (d : list User)
  (e pw : string) (user : User) :
  Auths.authenticate_user d e pw = Some user ->
  Users.get_user_by_email d e = Some user /\
  verify_password pw (user_password_hash user) = true.
Proof.
  unfold Auths.authenticate_user.
  destruct (Users.get_user_by_email d e) as [u |]; [| discriminate].
  destruct (verify_password pw (user_password_hash u)) eqn:Hv;
    [| discriminate].
  intros H. inversion H; subst. auto.
Qed.

(** In password mode, after a password update that returned, the answer
    was [true], only password hashes changed, and a sign-in under any
    casing of the session user's e-mail succeeds with the new password
    (given a hasher that accepts what it hashed); with the old password
    it succeeds only if the hasher accepts the old password against the
    new hash. *)
Theorem update_password_then_signin `{Ext : Externals}
  (form_data : UpdatePasswordForm) (su : User) (w w1 : World) (b : bool)
  (id2 password2 : string) (request2 : Request) (email2 : string) :
  truthy_opt WEBUI_AUTH_TRUSTED_EMAIL_HEADER = false ->
  verify_password (form_new_password form_data)
    (get_password_hash (form_new_password form_data)) = true ->
  update_password form_data (Some su) w = (Return b, w1) ->
  lower email2 = user_email su ->
  b = true /\
  map user_id (db w1) = map user_id (db w) /\
  map user_email (db w1) = map user_email (db w) /\
  map user_role (db w1) = map user_role (db w) /\
  state w1 = state w /\
  exists p,
    signin id2 password2 request2
      {| signin_email := email2;
         signin_password := form_new_password form_data |} w1 =
      (Return p, w1) /\
    email p = user_email su /\
    signin id2 password2 request2
      {| signin_email := email2;
         signin_password := form_password form_data |} w1 =
      (if verify_password (form_password form_data)
            (get_password_hash (form_new_password form_data))
       then Return p
       else Raise (HTTPException 400 INVALID_CRED), w1).
Proof.
  intros Hmode Hhash Hrun Hcase.
  unfold update_password in Hrun. rewrite Hmode in Hrun. run.
  destruct (Auths.authenticate_user (db w) (user_email su)
              (form_password form_data)) as [user |] eqn:Hauth;
    simpl in Hrun; [| discriminate].
  apply authenticate_user_some in Hauth. destruct Hauth as [Hfind _].
  pose proof (get_user_by_email_some _ _ _ Hfind) as [Hin Hmail].
  destruct (get_user_by_id_of_member _ _ Hin) as (u0 & Hu0 & _).
  unfold Auths.update_user_password_by_id in Hrun. rewrite Hu0 in Hrun.
  simpl in Hrun. injection Hrun as <- <-.
  split; [reflexivity |]. simpl.
  split; [apply update_rows_map; reflexivity |].
  split; [apply update_rows_map; reflexivity |].
  split; [apply update_rows_map; reflexivity |].
  split; [reflexivity |].
  set (hashed := get_password_hash (form_new_password form_data)) in *.
  set (w1 := set_db w (Users.update_rows (db w) (user_id user)
                         (set_password_hash hashed))).
  exists (session_payload
            (create_token (user_id user)
               (parse_duration (JWT_EXPIRES_IN (state w))))
            (set_password_hash hashed user) (Some "")).
  assert (Hfind1 : Users.get_user_by_email (db w1) (lower email2) =
                   Some (set_password_hash hashed user)).
  { unfold w1. simpl.
    rewrite get_user_by_email_update_rows by reflexivity.
    rewrite Hcase, Hfind. simpl. now rewrite String.eqb_refl. }
  split; [| split; [simpl; exact Hmail |]].
  - unfold signin, trusted_header. rewrite Hmode. run.
    unfold Auths.authenticate_user. rewrite Hfind1. simpl.
    now rewrite Hhash.
  - unfold signin, trusted_header. rewrite Hmode. run.
    unfold Auths.authenticate_user. rewrite Hfind1. simpl.
    fold hashed.
    destruct (verify_password (form_password form_data) hashed);
      reflexivity.
Qed.

Lemma update_password_then_signin_witness :
  true = true /\
  map user_id [set_password_hash "hash:changed" carol] = ["id-7"] /\
  map user_email [set_password_hash "hash:changed" carol] =
    ["carol@example.com"] /\
  map user_role [set_password_hash "hash:changed" carol] = ["user"] /\
  initial_state = initial_state /\
  exists p,
    @signin password_mode "id-9" "unused" no_headers
      {| signin_email := "Carol@Example.com"; signin_password := "changed" |}
      (set_db carol_world [set_password_hash "hash:changed" carol]) =
      (Return p, set_db carol_world [set_password_hash "hash:changed" carol])
    /\
    email p = "carol@example.com" /\
    @signin password_mode "id-9" "unused" no_headers
      {| signin_email := "Carol@Example.com"; signin_password := "secret" |}
      (set_db carol_world [set_password_hash "hash:changed" carol]) =
      (Raise (HTTPException 400 INVALID_CRED),
       set_db carol_world [set_password_hash "hash:changed" carol]).
Proof.
  exact (@update_password_then_signin password_mode
           (mkUpdatePasswordForm "secret" "changed") carol carol_world
           (set_db carol_world [set_password_hash "hash:changed" carol])
           true "id-9" "unused" no_headers "Carol@Example.com"
           eq_refl eq_refl eq_refl eq_refl).
Defined.

(** ** Sign-in *)

(** In password mode a sign-in never writes to the world, and a failed one
    gives the same 400 [INVALID_CRED] error whether the e-mail is unknown
    or the password is wrong. *)
Theorem signin_password_mode_read_only `{Ext : Externals}
  (new_id new_password : string) (request : Request)
  (form_data : SigninForm) (w : World) :
  truthy_opt WEBUI_AUTH_TRUSTED_EMAIL_HEADER = false ->
  snd (signin new_id new_password request form_data w) = w /\
  (Users.get_user_by_email (db w) (lower (signin_email form_data)) = None ->
   fst (signin new_id new_password request form_data w) =
   Raise (HTTPException 400 INVALID_CRED)) /\
  (forall u,
     Users.get_user_by_email (db w) (lower (signin_email form_data)) =
       Some u ->
     verify_password (signin_password form_data) (user_password_hash u) =
       false ->
     fst (signin new_id new_password request form_data w) =
     Raise (HTTPException 400 INVALID_CRED)).
Proof.
  intros Hmode. unfold signin, trusted_header. rewrite Hmode. run.
  unfold Auths.authenticate_user.
  destruct (Users.get_user_by_email (db w) (lower (signin_email form_data)))
    as [u |]; simpl.
  - destruct (verify_password (signin_password form_data)
                (user_password_hash u)) eqn:Hv; simpl.
    + split; [reflexivity |]. split; [discriminate |].
      intros u' [= <-] Hf. congruence.
    + split; [reflexivity |]. split; [discriminate | reflexivity].
  - split; [reflexivity |]. split; [reflexivity | discriminate].
Qed.

Lemma signin_password_mode_read_only_witness :
  snd (@signin password_mode "id-9" "unused" no_headers
         {| signin_email := "nobody@example.com";
            signin_password := "secret" |} carol_world) = carol_world /\
  fst (@signin password_mode "id-9" "unused" no_headers
         {| signin_email := "nobody@example.com";
            signin_password := "secret" |} carol_world) =
  Raise (HTTPException 400 INVALID_CRED).
Proof.
  destruct (@signin_password_mode_read_only password_mode "id-9" "unused"
              no_headers
              {| signin_email := "nobody@example.com";
                 signin_password := "secret" |} carol_world eq_refl)
    as (Hw & Hunknown & _).
  split; [exact Hw | exact (Hunknown eq_refl)].
Defined.

Section TrustedHeader.

Context `{Ext : Externals}.

Lemma trusted_header_some (header : string) :
  WEBUI_AUTH_TRUSTED_EMAIL_HEADER = Some header ->
  truthy header = true ->
  trusted_header = Some header.
Proof.
  intros Hcfg Htruthy. unfold trusted_header. rewrite Hcfg. simpl.
  now rewrite Htruthy.
Qed.

End TrustedHeader.

Lemma signin_by_trusted_header `{Ext : Externals}
  (header value : string) (new_id new_password : string)
  (request : Request) (form_data : SigninForm) (u : User) (w : World) :
  WEBUI_AUTH_TRUSTED_EMAIL_HEADER = Some header ->
  truthy header = true ->
  headers_get (headers request) header = Some value ->
  Users.get_user_by_email (db w) (lower value) = Some u ->
  signin new_id new_password request form_data w =
  (Return (session_payload
             (create_token (user_id u)
                (parse_duration (JWT_EXPIRES_IN (state w))))
             u (Some "")), w).
Proof.
  intros Hcfg Htruthy Hheader Hknown.
  unfold signin. rewrite (trusted_header_some header Hcfg Htruthy).
  rewrite Hheader. run. rewrite lower_idempotent, Hknown. simpl.
  unfold Auths.authenticate_user_by_trusted_header. rewrite Hknown.
  reflexivity.
Qed.

(** In trusted-header mode the header's e-mail, in any casing, signs its
    user in without a look at the submitted e-mail and password, and
    nothing is written. *)
Theorem signin_trusted_header_known_user `{Ext : Externals}
  (header value : string) (new_id new_password : string)
  (request : Request) (form_data : SigninForm) (u : User) (w : World) :
  WEBUI_AUTH_TRUSTED_EMAIL_HEADER = Some header ->
  truthy header = true ->
  headers_get (headers request) header = Some value ->
  Users.get_user_by_email (db w) (lower value) = Some u ->
  exists p,
    signin new_id new_password request form_data w = (Return p, w) /\
    id p = user_id u /\ email p = lower value /\ role p = user_role u.
Proof.
  intros Hcfg Htruthy Hheader Hknown.
  eexists. split.
  - exact (signin_by_trusted_header header value new_id new_password
             request form_data u w Hcfg Htruthy Hheader Hknown).
  - simpl. split; [reflexivity |]. split; [| reflexivity].
    apply (get_user_by_email_some _ _ _ Hknown).
Qed.

Lemma signin_trusted_header_known_user_witness :
  exists p,
    @signin trusted_header_mode "id-9" "unused"
      {| headers := [("x-forwarded-email", "Carol@Example.COM")] |}
      {| signin_email := "mallory@example.com"; signin_password := "" |}
      carol_world = (Return p, carol_world) /\
    id p = "id-7" /\ email p = "carol@example.com" /\ role p = "user".
Proof.
  exact (@signin_trusted_header_known_user trusted_header_mode
           "X-Forwarded-Email" "Carol@Example.COM" "id-9" "unused"
           {| headers := [("x-forwarded-email", "Carol@Example.COM")] |}
           {| signin_email := "mallory@example.com"; signin_password := "" |}
           carol carol_world eq_refl eq_refl eq_refl eq_refl).
Defined.

(** In trusted-header mode the first sight of an e-mail provisions an
    account through [signup], named after the e-mail in lower case, and
    signs it in; a later sign-in with the same header finds that account
    and writes nothing. *)
Theorem signin_trusted_header_provisions `{Ext : Externals}
  (header value : string) (new_id new_password : string)
  (request : Request) (form_data : SigninForm) (w : World) :
  WEBUI_AUTH_TRUSTED_EMAIL_HEADER = Some header ->
  truthy header = true ->
  headers_get (headers request) header = Some value ->
  signup_admissible new_id
    (trusted_signup_form (lower value) new_password) w ->
  let form := trusted_signup_form (lower value) new_password in
  signin new_id new_password request form_data w =
    (Return (signup_payload new_id form w), signup_world new_id form w) /\
  email (signup_payload new_id form w) = lower value /\
  name (signup_payload new_id form w) = lower value /\
  forall id2 password2 form_data2,
    signin id2 password2 request form_data2 (signup_world new_id form w) =
    (Return (signup_payload new_id form w), signup_world new_id form w).
Proof.
  intros Hcfg Htruthy Hheader Hadm form.
  pose proof Hadm as (_ & _ & Hnone & _).
  assert (Hrow : Users.get_user_by_email
                   (db (signup_world new_id form w)) (lower value) =
                 Some (signup_row new_id form w)).
  { pose proof (get_user_by_email_signup_world new_id form w Hnone) as H.
    simpl in H. now rewrite lower_idempotent in H. }
  split; [| split; [apply lower_idempotent | split; [reflexivity |]]].
  - unfold signin. rewrite (trusted_header_some header Hcfg Htruthy).
    rewrite Hheader. run.
    simpl in Hnone. rewrite Hnone. simpl.
    fold (trusted_signup_form (lower value) new_password). fold form.
    rewrite (signup_creates new_id request form w Hadm). simpl.
    unfold Auths.authenticate_user_by_trusted_header. rewrite Hrow.
    simpl. rewrite state_signup_world. reflexivity.
  - intros id2 password2 form_data2.
    rewrite (signin_by_trusted_header header value id2 password2
               request form_data2 (signup_row new_id form w)
               (signup_world new_id form w) Hcfg Htruthy Hheader Hrow).
    now rewrite state_signup_world.
Qed.

Lemma signin_trusted_header_provisions_witness :
  let form :=
    @trusted_signup_form trusted_header_mode "dave@example.com" "random" in
  @signin trusted_header_mode "id-8" "random"
    {| headers := [("X-Forwarded-Email", "Dave@Example.com")] |}
    {| signin_email := ""; signin_password := "" |} carol_world =
    (Return (@signup_payload trusted_header_mode "id-8" form carol_world),
     @signup_world trusted_header_mode "id-8" form carol_world) /\
  email (@signup_payload trusted_header_mode "id-8" form carol_world) =
    "dave@example.com" /\
  name (@signup_payload trusted_header_mode "id-8" form carol_world) =
    "dave@example.com" /\
  forall id2 password2 form_data2,
    @signin trusted_header_mode id2 password2
      {| headers := [("X-Forwarded-Email", "Dave@Example.com")] |}
      form_data2
      (@signup_world trusted_header_mode "id-8" form carol_world) =
    (Return (@signup_payload trusted_header_mode "id-8" form carol_world),
     @signup_world trusted_header_mode "id-8" form carol_world).
Proof.
  exact (@signin_trusted_header_provisions trusted_header_mode
           "X-Forwarded-Email" "Dave@Example.com" "id-8" "random"
           {| headers := [("X-Forwarded-Email", "Dave@Example.com")] |}
           {| signin_email := ""; signin_password := "" |} carol_world
           eq_refl eq_refl eq_refl
           (conj eq_refl (conj eq_refl (conj eq_refl eq_refl)))).
Defined.



(** ** The SSO callback, all outcomes *)

Section CallbackOutcomes.

Context `{Ext : Externals}.

Lemma update_rows_app (d1 d2 : list User) (uid : string) (f : User -> User) :
  Users.update_rows (d1 ++ d2) uid f =
  (Users.update_rows d1 uid f ++ Users.update_rows d2 uid f)%list.
Proof. unfold Users.update_rows. apply map_app. Qed.

Lemma get_user_by_id_snoc (d : list User) (u : User) :
  Users.get_user_by_id d (user_id u) = None ->
  Users.get_user_by_id (d ++ [u]) (user_id u) = Some u.
Proof.
  intros Hnone. unfold Users.get_user_by_id in *.
  rewrite find_app_split, Hnone. simpl. now rewrite String.eqb_refl.
Qed.

(** The callback for an unknown e-mail, when the sign-up it makes is
    admissible. *)
Lemma signin_callback_new_user (new_id new_password : string)
  (request : Request) (o : OpenID) (access_token : option string)
  (e display_name : string) (w : World) :
  sso_email o = Some e ->
  sso_display_name o = Some display_name ->
  let json := json_dumps (with_access_token o access_token) in
  let form := sso_signup_form display_name e new_password json in
  let row := set_role "user" (signup_row new_id form w) in
  signup_admissible new_id form w ->
  signin_callback new_id new_password request (Some o) access_token w =
  (Return (session_payload
             (create_token new_id
                (parse_duration (JWT_EXPIRES_IN (state w))))
             row (Some json)),
   set_db (signup_world new_id form w) (db w ++ [row])%list).
Proof.
  intros Hemail Hname json form row Hadm.
  pose proof Hadm as (_ & _ & Hnone & Hid).
  unfold signin_callback, try_except.
  cbn [sso_email sso_display_name with_access_token].
  rewrite Hemail, Hname.
  unfold bind at 1. unfold query at 1.
  simpl in Hnone. rewrite Hnone.
  fold json. fold (sso_signup_form display_name e new_password json).
  fold form.
  unfold bind at 1. unfold bind at 1.
  rewrite (signup_creates new_id request form w Hadm).
  unfold bind at 1. unfold query at 1.
  unfold Auths.authenticate_user_by_trusted_header.
  pose proof (get_user_by_email_signup_world new_id form w Hnone) as Hrow.
  simpl in Hrow. rewrite Hrow.
  unfold bind at 1. unfold query at 1.
  assert (Hcount : (Users.get_num_users
                      (db (signup_world new_id form w)) =? 0) = false).
  { rewrite db_signup_world. unfold Users.get_num_users.
    rewrite length_app. simpl. apply Nat.eqb_neq. lia. }
  rewrite Hcount.
  unfold execute, Users.update_user_role_by_id.
  change (user_id (signup_row new_id form w)) with new_id.
  assert (Hupd : Users.update_rows [signup_row new_id form w] new_id
                   (set_role "user") = [row]).
  { unfold Users.update_rows. simpl. now rewrite String.eqb_refl. }
  assert (Hget : Users.get_user_by_id (db w ++ [row]) new_id = Some row).
  { apply (get_user_by_id_snoc (db w) row). exact Hid. }
  rewrite db_signup_world, update_rows_app.
  rewrite (update_rows_absent (db w)) by exact Hid.
  rewrite Hupd, Hget.
  unfold bind, app_state, ret. simpl.
  rewrite state_signup_world. reflexivity.
Qed.

(** The callback for a known e-mail always returns. *)
Lemma signin_callback_existing_user_payload_any
  (new_id new_password : string) (request : Request) (o : OpenID)
  (access_token : option string) (e : string) (u : User) (w : World) :
  sso_email o = Some e ->
  Users.get_user_by_email (db w) (lower e) = Some u ->
  exists p u0,
    signin_callback new_id new_password request (Some o) access_token w =
    (Return p,
     set_db w (db_with_extra_sso (db w) (user_id u)
                 (json_dumps (with_access_token o access_token)))) /\
    Users.get_user_by_id (db w) (user_id u) = Some u0 /\
    id p = user_id u /\
    role p = user_role u0 /\
    extra_sso p = Some (json_dumps (with_access_token o access_token)).
Proof.
  intros Hemail Hfound.
  set (json := json_dumps (with_access_token o access_token)).
  apply get_user_by_email_some in Hfound as Hin. destruct Hin as [Hin _].
  destruct (get_user_by_id_of_member _ _ Hin) as (u0 & Hu0 & Hid0).
  exists (session_payload
            (create_token (user_id u0)
               (parse_duration (JWT_EXPIRES_IN (state w))))
            (refresh_extra_sso json u0) (Some json)), u0.
  split; [| split; [exact Hu0 | split; [exact Hid0 | split; reflexivity]]].
  unfold signin_callback. run. rewrite Hemail. simpl.
  rewrite Hfound. unfold Users.update_user_by_id. simpl.
  change (fun u1 : User => set_field u1 F_extra_sso
            (json_dumps (with_access_token o access_token)))
    with (refresh_extra_sso json).
  rewrite get_user_by_id_update_rows by reflexivity.
  rewrite Hu0. reflexivity.
Qed.

(** The three ways a callback ends. *)
Lemma signin_callback_outcomes (new_id new_password : string)
  (request : Request) (verified : option OpenID)
  (access_token : option string) (w : World) :
  signin_callback new_id new_password request verified access_token w =
    (Raise callback_error, w) \/
  (exists o e u p,
     verified = Some o /\ sso_email o = Some e /\
     Users.get_user_by_email (db w) (lower e) = Some u /\
     signin_callback new_id new_password request verified access_token w =
     (Return p,
      set_db w (db_with_extra_sso (db w) (user_id u)
                  (json_dumps (with_access_token o access_token))))) \/
  (exists o e display_name,
     verified = Some o /\ sso_email o = Some e /\
     sso_display_name o = Some display_name /\
     Users.get_user_by_email (db w) (lower e) = None /\
     signup_admissible new_id
       (sso_signup_form display_name e new_password
          (json_dumps (with_access_token o access_token))) w).
Proof.
  destruct verified as [o |]; [| left; reflexivity].
  destruct (sso_email o) as [e |] eqn:Hemail;
    [| left; unfold signin_callback; run; now rewrite Hemail].
  destruct (Users.get_user_by_email (db w) (lower e)) as [u |] eqn:Hfound.
  - right. left.
    destruct (signin_callback_existing_user_payload_any new_id new_password
                request o access_token e u w Hemail Hfound)
      as (p & u0 & Hp & _).
    exists o, e, u, p. auto.
  - destruct (sso_display_name o) as [display_name |] eqn:Hname.
    + set (form := sso_signup_form display_name e new_password
                     (json_dumps (with_access_token o access_token))).
      destruct (signup_outcomes new_id request form w)
        as [[Hadm _] | [e0 Hs]].
      * right. right. exists o, e, display_name. auto.
      * left. unfold signin_callback, try_except.
        cbn [sso_email sso_display_name with_access_token].
        rewrite Hemail, Hname.
        unfold bind at 1. unfold query at 1. rewrite Hfound.
        fold (sso_signup_form display_name e new_password
                (json_dumps (with_access_token o access_token))).
        fold form.
        unfold bind at 1. unfold bind at 1. rewrite Hs. reflexivity.
    + left. unfold signin_callback. run. rewrite Hemail. simpl.
      rewrite Hfound, Hname. reflexivity.
Qed.

End CallbackOutcomes.



(** With sign-up closed, the callback cannot provision: for an identity
    whose e-mail is unknown it raises its 500 error (the 403 of [signup]
    does not come through) and writes nothing. *)
Theorem signin_callback_signup_closed `{Ext : Externals}
  (new_id new_password : string) (request : Request) (o : OpenID)
  (access_token : option string) (e : string) (w : World) :
  ENABLE_SIGNUP (state w) = false ->
  sso_email o = Some e ->
  Users.get_user_by_email (db w) (lower e) = None ->
  signin_callback new_id new_password request (Some o) access_token w =
  (Raise (HTTPException 500 (Detail "Error in signin_callback")), w).
Proof.
  intros Hclosed Hemail Hnone.
  destruct (signin_callback_outcomes new_id new_password request (Some o)
              access_token w)
    as [Hraise | [(o' & em & u & p & Ho & Hem & Hfound & _)
                 | (o' & em & dn & _ & _ & _ & _ & Hadm)]].
  - exact Hraise.
  - injection Ho as <-. congruence.
  - destruct Hadm as (Hen & _). congruence.
Qed.

Lemma signin_callback_signup_closed_witness :
  @signin_callback password_mode "id-8" "random" no_headers
    (Some carol_identity) (Some "at-1") closed_world =
  (Raise (HTTPException 500 (Detail "Error in signin_callback")),
   closed_world).
Proof.
  exact (@signin_callback_signup_closed password_mode "id-8" "random"
           no_headers carol_identity (Some "at-1") "Carol@Example.com"
           closed_world eq_refl eq_refl eq_refl).
Defined.

(** The callback for an unknown e-mail, when sign-up is open, the e-mail
    well-formed and the drawn id new, appends exactly one row: e-mail in
    lower case, the display name, the placeholder image, the hash of the
    random password, the serialized identity under [extra_sso], and the
    role [user]; the payload is that of the new row and its token is
    issued for the new row's id. *)
Theorem signin_callback_provisions `{Ext : Externals}
  (new_id new_password : string) (request : Request) (o : OpenID)
  (access_token : option string) (e display_name : string) (w : World) :
  sso_email o = Some e ->
  sso_display_name o = Some display_name ->
  signup_admissible new_id
    (sso_signup_form display_name e new_password
       (json_dumps (with_access_token o access_token))) w ->
  exists p w' u,
    signin_callback new_id new_password request (Some o) access_token w =
      (Return p, w') /\
    db w' = (db w ++ [u])%list /\ state w' = state w /\
    user_id u = new_id /\
    user_email u = lower e /\
    user_name u = display_name /\
    user_profile_image_url u = "/user.png" /\
    user_password_hash u = get_password_hash new_password /\
    user_extra_sso u =
      Some (json_dumps (with_access_token o access_token)) /\
    user_role u = "user" /\
    user_api_key u = None /\
    p = session_payload
          (create_token (user_id u)
             (parse_duration (JWT_EXPIRES_IN (state w))))
          u (user_extra_sso u).
Proof.
  intros Hemail Hname Hadm.
  eexists. eexists. eexists. split.
  - exact (signin_callback_new_user new_id new_password request o
             access_token e display_name w Hemail Hname Hadm).
  - simpl. rewrite state_signup_world. repeat split.
Qed.

Lemma signin_callback_provisions_witness :
  exists p w' u,
    @signin_callback password_mode "id-8" "random" no_headers
      (Some carol_identity) (Some "at-1") alice_world = (Return p, w') /\
    db w' = (db alice_world ++ [u])%list /\
    state w' = state alice_world /\
    user_id u = "id-8" /\
    user_email u = "carol@example.com" /\
    user_name u = "Carol C." /\
    user_profile_image_url u = "/user.png" /\
    user_password_hash u = "hash:random" /\
    user_extra_sso u = Some "{email: Carol@Example.com}" /\
    user_role u = "user" /\
    user_api_key u = None /\
    p = session_payload ("token:" ++ user_id u) u (user_extra_sso u).
Proof.
  exact (@signin_callback_provisions password_mode "id-8" "random"
           no_headers carol_identity (Some "at-1") "Carol@Example.com"
           "Carol C." alice_world eq_refl eq_refl
           (conj eq_refl (conj eq_refl (conj eq_refl eq_refl)))).
Defined.

Lemma refresh_extra_sso_fixed (json : string) (x : User) :
  user_extra_sso x = Some json -> refresh_extra_sso json x = x.
Proof. destruct x; simpl. intros ->. reflexivity. Qed.

Lemma db_with_extra_sso_twice (d : list User) (uid json : string) :
  db_with_extra_sso (db_with_extra_sso d uid json) uid json =
  db_with_extra_sso d uid json.
Proof.
  unfold db_with_extra_sso. rewrite map_map. apply map_ext. intros x.
  destruct (user_id x =? uid)%string eqn:Hx.
  - simpl. now rewrite Hx.
  - now rewrite Hx.
Qed.

(** A callback repeated with the same identity, after one that returned,
    returns again for the same user and role and with the same
    [extra_sso], and leaves the world exactly as the first one left it: no
    second row, no further write. *)
Theorem signin_callback_again `{Ext : Externals}
  (new_id new_password : string) (request : Request)
  (verified : option OpenID) (access_token : option string)
  (w w1 : World) (p : SigninResponse)
  (id2 password2 : string) (request2 : Request) :
  signin_callback new_id new_password request verified access_token w =
    (Return p, w1) ->
  exists p',
    signin_callback id2 password2 request2 verified access_token w1 =
      (Return p', w1) /\
    id p' = id p /\ role p' = role p /\ extra_sso p' = extra_sso p.
Proof.
  intros H.
  destruct (signin_callback_outcomes new_id new_password request verified
              access_token w)
    as [Hraise | [(o & e & u & p0 & -> & Hem & Hfound & _)
                 | (o & e & dn & -> & Hem & Hdn & Hnone & Hadm)]].
  - rewrite Hraise in H. discriminate.
  - set (json := json_dumps (with_access_token o access_token)) in *.
    destruct (signin_callback_existing_user_payload_any new_id new_password
                request o access_token e u w Hem Hfound)
      as (p1 & u0 & Hrun & Hu0 & Hid & Hrole & Hsso).
    fold json in Hrun, Hsso.
    rewrite Hrun in H. injection H as <- <-.
    set (d1 := db_with_extra_sso (db w) (user_id u) json).
    assert (Hfound1 : Users.get_user_by_email (db (set_db w d1)) (lower e) =
                      Some (refresh_extra_sso json u)).
    { simpl. unfold d1.
      change (db_with_extra_sso (db w) (user_id u) json)
        with (Users.update_rows (db w) (user_id u) (refresh_extra_sso json)).
      rewrite get_user_by_email_update_rows by reflexivity.
      rewrite Hfound. simpl. now rewrite String.eqb_refl. }
    destruct (signin_callback_existing_user_payload_any id2 password2
                request2 o access_token e (refresh_extra_sso json u)
                (set_db w d1) Hem Hfound1)
      as (p' & u0' & Hrun' & Hu0' & Hid' & Hrole' & Hsso').
    fold json in Hrun', Hsso'.
    exists p'. split.
    + rewrite Hrun'. f_equal. simpl. unfold d1.
      now rewrite db_with_extra_sso_twice.
    + simpl in Hid'.
      split; [congruence |]. split; [| congruence].
      simpl in Hu0'. unfold d1 in Hu0'.
      change (db_with_extra_sso (db w) (user_id u) json)
        with (Users.update_rows (db w) (user_id u) (refresh_extra_sso json))
        in Hu0'.
      rewrite get_user_by_id_update_rows in Hu0' by reflexivity.
      rewrite Hu0 in Hu0'. simpl in Hu0'. injection Hu0' as <-.
      rewrite Hrole', Hrole. reflexivity.
  - set (json := json_dumps (with_access_token o access_token)) in *.
    set (form := sso_signup_form dn e new_password json) in *.
    rewrite (signin_callback_new_user new_id new_password request o
               access_token e dn w Hem Hdn Hadm) in H.
    fold json in H. fold form in H.
    set (row := set_role "user" (signup_row new_id form w)) in *.
    injection H as <- <-.
    pose proof Hadm as (_ & _ & _ & Hidnone).
    set (w1 := set_db (signup_world new_id form w) (db w ++ [row])).
    assert (Hfound1 : Users.get_user_by_email (db w1) (lower e) = Some row).
    { simpl. unfold Users.get_user_by_email in *.
      rewrite find_app_split, Hnone. simpl. now rewrite String.eqb_refl. }
    destruct (signin_callback_existing_user_payload_any id2 password2
                request2 o access_token e row w1 Hem Hfound1)
      as (p' & u0' & Hrun' & Hu0' & Hid' & Hrole' & Hsso').
    fold json in Hrun', Hsso'.
    exists p'. split.
    + rewrite Hrun'. f_equal. unfold w1 at 2. simpl. f_equal.
      change (db_with_extra_sso (db w ++ [row]) new_id json)
        with (Users.update_rows (db w ++ [row]) new_id
                (refresh_extra_sso json)).
      rewrite update_rows_app.
      rewrite (update_rows_absent (db w)) by exact Hidnone.
      unfold Users.update_rows. simpl. rewrite String.eqb_refl.
      reflexivity.
    + split; [exact Hid' |]. split; [| exact Hsso'].
      assert (Hsame : Some u0' = Some row).
      { rewrite <- Hu0'. exact (get_user_by_id_snoc (db w) row Hidnone). }
      injection Hsame as ->. exact Hrole'.
Qed.

Lemma signin_callback_again_witness :
  exists p',
    @signin_callback password_mode "id-9" "other" no_headers
      (Some alice_identity) (Some "at-1")
      (snd (@signin_callback password_mode "id-1" "random" no_headers
              (Some alice_identity) (Some "at-1") empty_world)) =
    (Return p',
     snd (@signin_callback password_mode "id-1" "random" no_headers
            (Some alice_identity) (Some "at-1") empty_world)) /\
    id p' = "id-1" /\ role p' = "user" /\
    extra_sso p' = Some "{email: Alice@Example.com}".
Proof.
  exact (@signin_callback_again password_mode "id-1" "random" no_headers
           (Some alice_identity) (Some "at-1") empty_world _ _
           "id-9" "other" no_headers eq_refl).
Defined.

(** ** API keys of other users, and of users without a row *)

Lemma get_user_by_id_update_rows_other (d : list User) (uid other : string)
  (f : User -> User) :
  (forall u, user_id (f u) = user_id u) ->
  other <> uid ->
  Users.get_user_by_id (Users.update_rows d uid f) other =
  Users.get_user_by_id d other.
Proof.
  intros Hf Hne. unfold Users.get_user_by_id, Users.update_rows.
  induction d as [| u d IH]; simpl; [reflexivity |].
  destruct (user_id u =? uid)%string eqn:Hu.
  - rewrite Hf. apply String.eqb_eq in Hu.
    destruct (String.eqb_spec (user_id u) other) as [E | _];
      [congruence | exact IH].
  - destruct (user_id u =? other)%string; [reflexivity | exact IH].
Qed.

(** Creating or deleting the API key of one user does not change what
    [get_api_key] answers for a user with another id. *)
Theorem api_key_of_other_user_untouched (api_key : string)
  (user other : User) (w : World) :
  user_id other <> user_id user ->
  fst (get_api_key other (snd (create_api_key_ api_key user w))) =
    fst (get_api_key other w) /\
  fst (get_api_key other (snd (delete_api_key user w))) =
    fst (get_api_key other w).
Proof.
  intros Hne.
  unfold get_api_key, create_api_key_, delete_api_key,
    Users.update_user_api_key_by_id, Users.get_user_api_key_by_id.
  run.
  destruct (Users.get_user_by_id (db w) (user_id user)) as [u |]; simpl.
  - rewrite !get_user_by_id_update_rows_other by auto.
    destruct (Users.get_user_by_id (db w) (user_id other)) as [uo |];
      [destruct (user_api_key uo) as [k |]; [destruct (truthy k) |] |];
      split; reflexivity.
  - rewrite set_db_same. split; reflexivity.
Qed.

Lemma api_key_of_other_user_untouched_witness :
  fst (get_api_key carol
         (snd (create_api_key_ "sk-a1" alice
                 (set_db carol_world
                    [alice; set_api_key (Some "sk-c7") carol])))) =
    Return "sk-c7" /\
  fst (get_api_key carol
         (snd (delete_api_key alice
                 (set_db carol_world
                    [alice; set_api_key (Some "sk-c7") carol])))) =
    Return "sk-c7".
Proof.
  apply (api_key_of_other_user_untouched "sk-a1" alice carol
           (set_db carol_world [alice; set_api_key (Some "sk-c7") carol])).
  discriminate.
Defined.

(** For a session user without a row, creating a key raises the 500
    [CREATE_API_KEY_ERROR] error, deleting answers [false], and reading
    raises the 404 [API_KEY_NOT_FOUND] error; none of them writes. *)
Theorem api_key_without_row (api_key : string) (user : User) (w : World) :
  Users.get_user_by_id (db w) (user_id user) = None ->
  create_api_key_ api_key user w =
    (Raise (HTTPException 500 CREATE_API_KEY_ERROR), w) /\
  delete_api_key user w = (Return false, w) /\
  get_api_key user w = (Raise (HTTPException 404 API_KEY_NOT_FOUND), w).
Proof.
  intros Hrow.
  unfold create_api_key_, delete_api_key, get_api_key,
    Users.update_user_api_key_by_id, Users.get_user_api_key_by_id.
  run. rewrite Hrow. simpl. rewrite set_db_same. auto.
Qed.

Lemma api_key_without_row_witness :
  create_api_key_ "sk-a1" alice carol_world =
    (Raise (HTTPException 500 CREATE_API_KEY_ERROR), carol_world) /\
  delete_api_key alice carol_world = (Return false, carol_world) /\
  get_api_key alice carol_world =
    (Raise (HTTPException 404 API_KEY_NOT_FOUND), carol_world).
Proof.
  apply (api_key_without_row "sk-a1" alice carol_world). reflexivity.
Defined.

(** ** What any run of requests keeps *)

Section MachineFacts.

Context `{Ext : Externals}.

Lemma table_step_refl (w : World) : table_step w w.
Proof.
  split; [constructor | split; [reflexivity |]].
  exists []. rewrite app_nil_r. simpl. auto.
Qed.

Lemma length_update_rows (d : list User) (uid : string) (f : User -> User) :
  length (Users.update_rows d uid f) = length d.
Proof. unfold Users.update_rows. apply length_map. Qed.

Lemma table_step_update (w : World) (uid : string) (f : User -> User) :
  (forall u, user_id (f u) = user_id u) ->
  (forall u, user_email (f u) = user_email u) ->
  table_step w (set_db w (Users.update_rows (db w) uid f)).
Proof.
  intros Hi He. split; [now constructor | split; [reflexivity |]].
  exists []. simpl. rewrite app_nil_r, length_update_rows. auto.
Qed.

Lemma evolves_signup_row (new_id : string) (form_data : SignupForm)
  (w : World) (r : string) :
  signup_admissible new_id form_data w ->
  evolves (db w) (db w ++ [set_role r (signup_row new_id form_data w)]).
Proof.
  intros (_ & Hvalid & Hemail & Hid).
  apply evolves_insert; simpl; auto using lower_idempotent.
Qed.

(** What a successful [signup] hands to the notifier. *)
Lemma signup_world_sent (new_id : string) (form_data : SignupForm)
  (w : World) :
  exists sent,
    outbox (signup_world new_id form_data w) = (outbox w ++ sent)%list /\
    length sent <= 1 /\
    (truthy (WEBHOOK_URL (state w)) = false -> sent = []).
Proof.
  unfold signup_world.
  destruct (truthy (WEBHOOK_URL (state w))); simpl.
  - eexists. split; [reflexivity |]. simpl. split; [lia | discriminate].
  - exists []. rewrite app_nil_r. simpl. auto.
Qed.

Lemma signup_table_step (new_id : string) (request : Request)
  (form_data : SignupForm) (w : World) :
  table_step w (snd (signup new_id request form_data w)).
Proof.
  destruct (signup_outcomes new_id request form_data w)
    as [[Hadm ->] | [e ->]]; simpl; [| apply table_step_refl].
  split; [| split; [apply state_signup_world |]].
  - rewrite db_signup_world.
    change (signup_row new_id form_data w)
      with (set_role (signup_role w) (signup_row new_id form_data w)).
    now apply evolves_signup_row.
  - destruct (signup_world_sent new_id form_data w)
      as (sent & Hout & Hlen & Hnone).
    exists sent. rewrite db_signup_world, length_app. simpl.
    split; [assumption | split; [lia | assumption]].
Qed.

Lemma signin_table_step (new_id new_password : string) (request : Request)
  (form_data : SigninForm) (w : World) :
  table_step w (snd (signin new_id new_password request form_data w)).
Proof.
  unfold signin. destruct trusted_header as [header |].
  - destruct (headers_get (headers request) header) as [value |];
      [| apply table_step_refl].
    unfold bind at 1. unfold bind at 1. unfold query at 1.
    destruct (Users.get_user_by_email (db w) (lower (lower value)))
      as [u |].
    + run. destruct (Auths.authenticate_user_by_trusted_header (db w)
                       (lower value)); apply table_step_refl.
    + simpl negb. cbv iota.
      unfold bind at 1. unfold bind at 1.
      match goal with
      | |- context [signup new_id request ?f w] =>
          pose proof (signup_table_step new_id request f w) as Hstep;
          destruct (signup new_id request f w) as [[p | e] w2]
      end; simpl in Hstep.
      * run. destruct (Auths.authenticate_user_by_trusted_header (db w2)
                         (lower value)); exact Hstep.
      * exact Hstep.
  - run. destruct (Auths.authenticate_user (db w)
                     (lower (signin_email form_data))
                     (signin_password form_data)); apply table_step_refl.
Qed.

Lemma add_user_table_step (new_id : string) (form_data : AddUserForm)
  (user : User) (w : World) :
  table_step w (snd (add_user new_id form_data user w)).
Proof.
  unfold add_user. run.
  destruct (validate_email_format (lower (add_email form_data))) eqn:Hv;
    simpl; [| apply table_step_refl].
  destruct (Users.get_user_by_email (db w) (lower (add_email form_data)))
    eqn:Hemail; simpl; [apply table_step_refl |].
  unfold Auths.insert_new_auth. rewrite Hemail.
  destruct (Users.get_user_by_id (db w) new_id) eqn:Hid; simpl.
  - rewrite set_db_same. apply table_step_refl.
  - split; [| split; [reflexivity |]]; simpl.
    + apply evolves_insert; simpl; auto using lower_idempotent.
    + exists []. rewrite app_nil_r, length_app. simpl.
      split; [reflexivity | split; [lia | reflexivity]].
Qed.

Lemma update_profile_table_step (form_data : UpdateProfileForm)
  (session_user : option User) (w : World) :
  table_step w (snd (update_profile form_data session_user w)).
Proof.
  unfold update_profile. destruct session_user as [su |];
    [| apply table_step_refl].
  unfold Users.update_user_by_id. run.
  match goal with
  | |- context [Users.get_user_by_id ?d ?i] =>
      destruct (Users.get_user_by_id d i)
  end; simpl; apply table_step_update; reflexivity.
Qed.

Lemma update_password_table_step (form_data : UpdatePasswordForm)
  (session_user : option User) (w : World) :
  table_step w (snd (update_password form_data session_user w)).
Proof.
  unfold update_password.
  destruct (truthy_opt WEBUI_AUTH_TRUSTED_EMAIL_HEADER);
    [apply table_step_refl |].
  destruct session_user as [su |]; [| apply table_step_refl].
  run.
  destruct (Auths.authenticate_user (db w) (user_email su)
              (form_password form_data)) as [user |]; simpl;
    [| apply table_step_refl].
  unfold Auths.update_user_password_by_id.
  destruct (Users.get_user_by_id (db w) (user_id user)); simpl.
  - apply table_step_update; reflexivity.
  - rewrite set_db_same. apply table_step_refl.
Qed.

Lemma api_key_table_step (k : option string) (user : User) (w : World) :
  table_step w
    (set_db w (snd (Users.update_user_api_key_by_id (user_id user) k
                      (db w)))).
Proof.
  unfold Users.update_user_api_key_by_id.
  destruct (Users.get_user_by_id (db w) (user_id user)); simpl.
  - apply table_step_update; reflexivity.
  - rewrite set_db_same. apply table_step_refl.
Qed.

Lemma signin_callback_table_step (new_id new_password : string)
  (request : Request) (verified : option OpenID)
  (access_token : option string) (w : World) :
  table_step w
    (snd (signin_callback new_id new_password request verified
            access_token w)).
Proof.
  destruct (signin_callback_outcomes new_id new_password request verified
              access_token w)
    as [-> | [(o & e & u & p & _ & _ & _ & ->)
             | (o & e & dn & -> & Hem & Hdn & _ & Hadm)]].
  - apply table_step_refl.
  - simpl. apply (table_step_update w (user_id u)); reflexivity.
  - rewrite (signin_callback_new_user new_id new_password request o
               access_token e dn w Hem Hdn Hadm).
    split; [| split]; simpl.
    + now apply evolves_signup_row.
    + apply state_signup_world.
    + match goal with
      | |- context [signup_world new_id ?f w] =>
          destruct (signup_world_sent new_id f w)
            as (sent & Hout & Hlen & Hnone)
      end.
      exists sent. rewrite length_app. simpl.
      split; [assumption | split; [lia | assumption]].
Qed.

(** Every request that is not a configuration write is a table step. *)
Lemma serve_table_step (c : Call) (w : World) :
  is_config_write c = false -> table_step w (serve c w).
Proof.
  destruct c; simpl; try discriminate; intros _;
    try (apply table_step_refl);
    try (now apply signin_table_step);
    try (now apply signup_table_step);
    try (now apply add_user_table_step);
    try (now apply update_profile_table_step);
    try (now apply update_password_table_step);
    try (now apply signin_callback_table_step).
  - unfold create_api_key_. run.
    pose proof (api_key_table_step (Some api_key) user w) as H.
    destruct (Users.update_user_api_key_by_id (user_id user)
                (Some api_key) (db w)) as [[|] d']; exact H.
  - unfold delete_api_key. run.
    pose proof (api_key_table_step None user w) as H.
    destruct (Users.update_user_api_key_by_id (user_id user) None (db w))
      as [b d']; exact H.
  - unfold get_api_key. run.
    destruct (Users.get_user_api_key_by_id (db w) (user_id user)) as [k |];
      [destruct (truthy k) |]; apply table_step_refl.
Qed.

(** A configuration write leaves the table, the outbox and the webhook
    address alone. *)
Lemma serve_config_write (c : Call) (w : World) :
  is_config_write c = true ->
  db (serve c w) = db w /\ outbox (serve c w) = outbox w /\
  WEBHOOK_URL (state (serve c w)) = WEBHOOK_URL (state w).
Proof.
  destruct c; simpl; try discriminate; intros _.
  - auto.
  - unfold update_default_user_role.
    destruct (existsb (String.eqb form_role) ["pending"; "user"; "admin"]);
      auto.
  - unfold update_token_expires_duration.
    destruct (Re.match_anchored duration_pattern duration); auto.
Qed.

End MachineFacts.

Section Invariants.

Context `{Ext : Externals}.

Lemma serve_evolves (c : Call) (w : World) :
  evolves (db w) (db (serve c w)).
Proof.
  destruct (is_config_write c) eqn:Hc.
  - destruct (serve_config_write c w Hc) as (-> & _). constructor.
  - now destruct (serve_table_step c w Hc).
Qed.

Lemma serve_all_snoc (cs : list Call) (c : Call) (w : World) :
  serve_all (cs ++ [c]) w = serve c (serve_all cs w).
Proof. unfold serve_all. now rewrite fold_left_app. Qed.

(** What holds of the start and is kept by every request holds after
    any run. *)
Lemma serve_all_invariant (P : World -> Prop) :
  (forall c w, P w -> P (serve c w)) ->
  forall cs w, P w -> P (serve_all cs w).
Proof.
  intros Hstep cs. induction cs as [| c cs IH]; intros w Hw; simpl.
  - exact Hw.
  - apply IH. now apply Hstep.
Qed.

Lemma not_in_emails (d : list User) (e : string) :
  Users.get_user_by_email d e = None -> ~ In e (map user_email d).
Proof.
  intros Hnone Hin. apply in_map_iff in Hin. destruct Hin as (u & <- & Hu).
  unfold Users.get_user_by_email in Hnone.
  pose proof (find_none _ _ Hnone u Hu) as H. simpl in H.
  now rewrite String.eqb_refl in H.
Qed.

Lemma not_in_ids (d : list User) (i : string) :
  Users.get_user_by_id d i = None -> ~ In i (map user_id d).
Proof.
  intros Hnone Hin. apply in_map_iff in Hin. destruct Hin as (u & <- & Hu).
  unfold Users.get_user_by_id in Hnone.
  pose proof (find_none _ _ Hnone u Hu) as H. simpl in H.
  now rewrite String.eqb_refl in H.
Qed.

Lemma NoDup_snoc {A} (l : list A) (a : A) :
  NoDup l -> ~ In a l -> NoDup (l ++ [a]).
Proof.
  intros Hl Ha. apply NoDup_app; [assumption | repeat constructor; auto |].
  intros x Hx [<- | []]. contradiction.
Qed.

Lemma evolves_unique_ids (d d' : list User) :
  evolves d d' -> unique_ids d -> unique_ids d'.
Proof.
  unfold unique_ids.
  induction 1 as [d | d uid f Hi He | d u Hid Hemail Hl Hv | d1 d2 d3 _ IH1 _ IH2];
    intros Hd; auto.
  - now rewrite (update_rows_map user_id d uid f Hi).
  - rewrite map_app. simpl. apply NoDup_snoc; [assumption |].
    now apply not_in_ids.
Qed.

Lemma evolves_unique_emails (d d' : list User) :
  evolves d d' -> unique_emails d -> unique_emails d'.
Proof.
  unfold unique_emails.
  induction 1 as [d | d uid f Hi He | d u Hid Hemail Hl Hv | d1 d2 d3 _ IH1 _ IH2];
    intros Hd; auto.
  - now rewrite (update_rows_map user_email d uid f He).
  - rewrite map_app. simpl. apply NoDup_snoc; [assumption |].
    now apply not_in_emails.
Qed.

Lemma evolves_normalized (d d' : list User) :
  evolves d d' -> normalized d -> normalized d'.
Proof.
  induction 1 as [d | d uid f Hi He | d u Hid Hemail Hl Hv | d1 d2 d3 _ IH1 _ IH2];
    intros Hd; auto.
  - now apply normalized_update_rows.
  - now apply normalized_snoc.
Qed.

Lemma evolves_rows_kept (d d' : list User) :
  evolves d d' -> rows_kept d d'.
Proof.
  unfold rows_kept.
  induction 1 as [d | d uid f Hi He | d u Hid Hemail Hl Hv
                 | d1 d2 d3 _ [l1 [Hi1 He1]] _ [l2 [Hi2 He2]]].
  - exists []. simpl. now rewrite !app_nil_r.
  - exists []. simpl. rewrite !app_nil_r.
    split; apply update_rows_map; assumption.
  - exists [u]. now rewrite !map_app.
  - exists (l1 ++ l2)%list.
    rewrite Hi2, He2, Hi1, He1, !map_app, !app_assoc. auto.
Qed.

End Invariants.

(** No run of requests removes a user or changes the id or the e-mail of
    one: the ids and e-mails of the rows there at the start are, in place,
    those of the first rows at the end. *)
Theorem serve_all_keeps_rows `{Ext : Externals} (cs : list Call)
  (w : World) :
  rows_kept (db w) (db (serve_all cs w)).
Proof.
  apply evolves_rows_kept.
  apply (serve_all_invariant (fun w' => evolves (db w) (db w'))).
  - intros c w' H. eapply evolves_trans; [exact H | apply serve_evolves].
  - constructor.
Qed.

(** Ids and e-mails stay unique through any run of requests. *)
Theorem serve_all_keeps_unique `{Ext : Externals} (cs : list Call)
  (w : World) :
  unique_ids (db w) ->
  unique_emails (db w) ->
  unique_ids (db (serve_all cs w)) /\ unique_emails (db (serve_all cs w)).
Proof.
  intros Hi He.
  apply (serve_all_invariant
           (fun w' => unique_ids (db w') /\ unique_emails (db w')));
    [| auto].
  intros c w' [Hi' He']. split.
  - exact (evolves_unique_ids _ _ (serve_evolves c w') Hi').
  - exact (evolves_unique_emails _ _ (serve_evolves c w') He').
Qed.

(** Stored e-mails stay in lower case and well-formed through any run of
    requests. *)
Theorem serve_all_keeps_normalized `{Ext : Externals} (cs : list Call)
  (w : World) :
  normalized (db w) -> normalized (db (serve_all cs w)).
Proof.
  apply (serve_all_invariant (fun w' => normalized (db w'))).
  intros c w'. apply evolves_normalized, serve_evolves.
Qed.

Lemma serve_all_keeps_unique_witness :
  unique_ids (db (@serve_all password_mode sample_run empty_world)) /\
  unique_emails (db (@serve_all password_mode sample_run empty_world)).
Proof.
  apply (@serve_all_keeps_unique password_mode sample_run empty_world);
    constructor.
Defined.

Lemma serve_all_keeps_normalized_witness :
  @normalized password_mode
    (db (@serve_all password_mode sample_run empty_world)).
Proof.
  apply (@serve_all_keeps_normalized password_mode sample_run empty_world).
  constructor.
Defined.

Example sample_run_table :
  map (fun u => (user_id u, user_email u, user_role u))
    (db (@serve_all password_mode sample_run empty_world)) =
  [ ("id-1", "alice@example.com", "admin");
    ("id-8", "carol@example.com", "user");
    ("id-2", "bob@example.com", "user");
    ("id-4", "erin@example.com", "pending") ].
Proof. reflexivity. Qed.

Section ConfigInvariants.

Context `{Ext : Externals}.

Lemma serve_config (c : Call) (w : World) :
  WEBHOOK_URL (state (serve c w)) = WEBHOOK_URL (state w) /\
  (valid_role (DEFAULT_USER_ROLE (state w)) ->
   valid_role (DEFAULT_USER_ROLE (state (serve c w)))) /\
  (Re.match_anchored duration_pattern (JWT_EXPIRES_IN (state w)) = true ->
   Re.match_anchored duration_pattern
     (JWT_EXPIRES_IN (state (serve c w))) = true).
Proof.
  destruct (is_config_write c) eqn:Hc.
  - destruct c; simpl in *; try discriminate.
    + auto.
    + unfold update_default_user_role.
      destruct (existsb (String.eqb form_role) ["pending"; "user"; "admin"])
        eqn:Hin; simpl; [| auto].
      apply valid_role_decide in Hin. auto.
    + unfold update_token_expires_duration.
      destruct (Re.match_anchored duration_pattern duration) eqn:Hm;
        simpl; auto.
  - destruct (serve_table_step c w Hc) as (_ & -> & _). auto.
Qed.

Lemma serve_sent (c : Call) (w : World) :
  WEBHOOK_URL (state (serve c w)) = WEBHOOK_URL (state w) /\
  exists sent,
    outbox (serve c w) = (outbox w ++ sent)%list /\
    length sent + length (db w) <= length (db (serve c w)) /\
    (truthy (WEBHOOK_URL (state w)) = false -> sent = []).
Proof.
  split; [apply serve_config |].
  destruct (is_config_write c) eqn:Hc.
  - destruct (serve_config_write c w Hc) as (-> & -> & _).
    exists []. rewrite app_nil_r. simpl. auto.
  - now destruct (serve_table_step c w Hc) as (_ & _ & H).
Qed.

End ConfigInvariants.

(** Through any run of requests the webhook address is never changed, the
    default role stays one of pending, user, admin, and the JWT expiry
    stays a text the duration pattern accepts. *)
Theorem serve_all_keeps_config `{Ext : Externals} (cs : list Call)
  (w : World) :
  valid_role (DEFAULT_USER_ROLE (state w)) ->
  Re.match_anchored duration_pattern (JWT_EXPIRES_IN (state w)) = true ->
  WEBHOOK_URL (state (serve_all cs w)) = WEBHOOK_URL (state w) /\
  valid_role (DEFAULT_USER_ROLE (state (serve_all cs w))) /\
  Re.match_anchored duration_pattern
    (JWT_EXPIRES_IN (state (serve_all cs w))) = true.
Proof.
  intros Hrole Hjwt.
  apply (serve_all_invariant
           (fun w' =>
              WEBHOOK_URL (state w') = WEBHOOK_URL (state w) /\
              valid_role (DEFAULT_USER_ROLE (state w')) /\
              Re.match_anchored duration_pattern
                (JWT_EXPIRES_IN (state w')) = true));
    [| auto].
  intros c w' (Hurl & Hr & Hj).
  destruct (serve_config c w') as (Hurl' & Hr' & Hj').
  split; [congruence | auto].
Qed.

Lemma serve_all_keeps_config_witness :
  WEBHOOK_URL (state (@serve_all password_mode sample_run empty_world)) =
    "" /\
  valid_role
    (DEFAULT_USER_ROLE
       (state (@serve_all password_mode sample_run empty_world))) /\
  Re.match_anchored duration_pattern
    (JWT_EXPIRES_IN
       (state (@serve_all password_mode sample_run empty_world))) = true.
Proof.
  apply (@serve_all_keeps_config password_mode sample_run empty_world).
  - left. reflexivity.
  - reflexivity.
Defined.

(** Through any run of requests the outbox only grows, by at most one
    notification per row added to the table, and not at all when no
    webhook address is configured. *)
Theorem serve_all_notifications `{Ext : Externals} (cs : list Call)
  (w : World) :
  exists sent,
    outbox (serve_all cs w) = (outbox w ++ sent)%list /\
    length sent + length (db w) <= length (db (serve_all cs w)) /\
    (truthy (WEBHOOK_URL (state w)) = false -> sent = []).
Proof.
  enough (WEBHOOK_URL (state (serve_all cs w)) = WEBHOOK_URL (state w) /\
          exists sent,
            outbox (serve_all cs w) = (outbox w ++ sent)%list /\
            length sent + length (db w) <= length (db (serve_all cs w)) /\
            (truthy (WEBHOOK_URL (state w)) = false -> sent = []))
    as [_ H] by exact H.
  apply (serve_all_invariant
           (fun w' =>
              WEBHOOK_URL (state w') = WEBHOOK_URL (state w) /\
              exists sent,
                outbox w' = (outbox w ++ sent)%list /\
                length sent + length (db w) <= length (db w') /\
                (truthy (WEBHOOK_URL (state w)) = false -> sent = []))).
  - intros c w' (Hurl & sent & Hout & Hlen & Hnone).
    destruct (serve_sent c w') as (Hurl' & sent' & Hout' & Hlen' & Hnone').
    split; [congruence |].
    exists (sent ++ sent')%list.
    rewrite Hout', Hout, app_assoc, length_app.
    split; [reflexivity |]. split; [lia |].
    intros Hoff. rewrite (Hnone Hoff).
    rewrite Hurl in Hnone'. now rewrite (Hnone' Hoff).
  - split; [reflexivity |]. exists []. rewrite app_nil_r. simpl. auto.
Qed.

(** ** Configuration writes and the requests that follow *)

(** A default role set by the administrator is the role of the next user
    who signs up into a table that is not empty. *)
Theorem default_role_then_signup `{Ext : Externals} (form_role : string)
  (admin : User) (new_id : string) (request : Request)
  (form_data : SignupForm) (w : World) :
  valid_role form_role ->
  db w <> [] ->
  signup_admissible new_id form_data w ->
  exists p w',
    signup new_id request form_data
      (snd (update_default_user_role form_role admin w)) = (Return p, w') /\
    role p = form_role /\
    map user_role (db w') = (map user_role (db w) ++ [form_role])%list.
Proof.
  intros Hrole Hne Hadm.
  apply valid_role_decide in Hrole.
  set (w0 := snd (update_default_user_role form_role admin w)).
  assert (Hw0 : db w0 = db w /\ DEFAULT_USER_ROLE (state w0) = form_role /\
                ENABLE_SIGNUP (state w0) = ENABLE_SIGNUP (state w)).
  { unfold w0, update_default_user_role. rewrite Hrole. simpl. auto. }
  destruct Hw0 as (Hdb & Hdef & Hen).
  assert (Hadm0 : signup_admissible new_id form_data w0).
  { destruct Hadm as (H1 & H2 & H3 & H4).
    unfold signup_admissible. rewrite Hdb, Hen. auto. }
  exists (signup_payload new_id form_data w0),
         (signup_world new_id form_data w0).
  split; [now apply signup_creates |].
  assert (Hr : signup_role w0 = form_role).
  { unfold signup_role. rewrite Hdb, Hdef.
    destruct (db w); [contradiction | reflexivity]. }
  split; [exact Hr |].
  rewrite db_signup_world, map_app, Hdb. simpl. now rewrite Hr.
Qed.

Lemma default_role_then_signup_witness :
  exists p w',
    @signup password_mode "id-2" no_headers bob_form
      (snd (update_default_user_role "user" alice alice_world)) =
      (Return p, w') /\
    role p = "user" /\
    map user_role (db w') = ["admin"; "user"].
Proof.
  apply (@default_role_then_signup password_mode "user" alice "id-2"
           no_headers bob_form alice_world).
  - right. left. reflexivity.
  - discriminate.
  - repeat split; reflexivity.
Defined.

(** An accepted expiry is the one the next password sign-in issues its
    token with. *)
Theorem expiry_then_signin `{Ext : Externals} (duration : string)
  (admin : User) (new_id new_password : string) (request : Request)
  (form_data : SigninForm) (u : User) (w : World) :
  truthy_opt WEBUI_AUTH_TRUSTED_EMAIL_HEADER = false ->
  Re.match_anchored duration_pattern duration = true ->
  Auths.authenticate_user (db w) (lower (signin_email form_data))
    (signin_password form_data) = Some u ->
  fst (signin new_id new_password request form_data
         (snd (update_token_expires_duration duration admin w))) =
  Return (session_payload
            (create_token (user_id u) (parse_duration duration))
            u (Some "")).
Proof.
  intros Hmode Hm Hauth.
  unfold update_token_expires_duration. rewrite Hm.
  unfold signin, trusted_header. rewrite Hmode. run.
  now rewrite Hauth.
Qed.

Lemma expiry_then_signin_witness :
  fst (@signin password_mode "id-9" "unused" no_headers
         {| signin_email := "Carol@example.com"; signin_password := "secret" |}
         (snd (update_token_expires_duration "4h" alice carol_world))) =
  Return (session_payload
            (@create_token password_mode "id-7"
               (@parse_duration password_mode "4h"))
            carol (Some "")).
Proof.
  apply (@expiry_then_signin password_mode "4h" alice "id-9" "unused"
           no_headers
           {| signin_email := "Carol@example.com";
              signin_password := "secret" |} carol carol_world);
    reflexivity.
Defined.
